(** * sc2reader.objects: participant normalisation, verified

    A shallow embedding of [sc2reader/objects.py] (Python 2 semantics:
    byte strings, [zip] returning a list) and the properties of its
    attribute decoder, account-handle parser, role composition, team
    aggregates and score graphs.

    Python objects are attribute dictionaries ([self.__dict__]) tagged with
    their class; constructors are state transformers over that dictionary in
    an exception monad, run in the order the source runs them. *)

From stdpp Require Import base option list sorting pretty gmap.
From Stdlib Require Import ZArith Ascii String.
From stdpp Require Import strings.

Open Scope Z_scope.
Open Scope string_scope.

(** ** Exceptions *)

Inductive PyExc :=
| ValueError (msg : string)
| TypeError
| KeyError
| IndexError
| AttributeError (attr : string)
| Unmodelled. (* text form of a value whose [repr] lies outside the model *)

Inductive result (A : Type) :=
| Ok (a : A)
| Raise (e : PyExc).
Arguments Ok {A} a.
Arguments Raise {A} e.

Global Instance result_ret : MRet result := @Ok.
Global Instance result_bind : MBind result := λ A B f m,
  match m with Ok a => f a | Raise e => Raise e end.
Global Instance result_fmap : FMap result := λ A B f m,
  match m with Ok a => Ok (f a) | Raise e => Raise e end.

Definition from_lookup {A} (o : option A) (e : PyExc) : result A :=
  match o with Some a => Ok a | None => Raise e end.

(** [mapR f l]: what a generator expression [f(p) for p in l] delivers when
    it is consumed to the end: the first exception, in iteration order, or
    all the values. *)
Fixpoint mapR {A B} (f : A → result B) (l : list A) : result (list B) :=
  match l with
  | [] => Ok []
  | x :: l' => y ← f x; ys ← mapR f l'; Ok (y :: ys)
  end.

(** ** Byte strings *)

Module PyStr.

Definition mem (c : ascii) (chars : string) : bool :=
  bool_decide (c ∈ list_ascii_of_string chars).

(** [s.lstrip(chars)], [s.rstrip(chars)], [s.strip(chars)]. *)
Fixpoint lstrip (chars s : string) : string :=
  match s with
  | "" => ""
  | String c s' => if mem c chars then lstrip chars s' else s
  end.
Fixpoint rstrip (chars s : string) : string :=
  match s with
  | "" => ""
  | String c s' =>
      match rstrip chars s' with
      | "" => if mem c chars then "" else String c ""
      | t => String c t
      end
  end.
Definition strip (chars s : string) : string :=
  rstrip chars (lstrip chars s).

(** [s[::-1]] *)
Definition reversed (s : string) : string := String.rev s.

(** [s.split(sep)] for a one-character separator. *)
Fixpoint split_go (sep : ascii) (cur s : string) : list string :=
  match s with
  | "" => [String.rev cur]
  | String c s' =>
      if decide (c = sep) then String.rev cur :: split_go sep "" s'
      else split_go sep (String c cur) s'
  end.
Definition split (sep : ascii) (s : string) : list string :=
  split_go sep "" s.

(** [sep.join(l)] *)
Definition join (sep : string) (l : list string) : string :=
  String.concat sep l.

(** [c.upper()] on a byte string in the C locale: only a-z change. *)
Definition upper_char (c : ascii) : ascii :=
  let n := N_of_ascii c in
  if ((97 <=? n) && (n <=? 122))%N then ascii_of_N (n - 32) else c.
Fixpoint upper (s : string) : string :=
  match s with
  | "" => ""
  | String c s' => String (upper_char c) (upper s')
  end.

(** [s[0]] *)
Definition first (s : string) : result string :=
  match s with
  | "" => Raise IndexError
  | String c _ => Ok (String c "")
  end.

(** [sorted(l)] on byte strings: ascending in the bytewise lexicographic
    order, by a stable merge sort. *)
Definition sorted (l : list string) : list string :=
  merge_sort String.le l.

(** [int(s)]: surrounding white space, an optional sign, decimal digits. *)
Definition whitespace : string :=
  String "009" (String "010" (String "011" (String "012" (String "013" " ")))).

Fixpoint digits (s : string) (acc : Z) : option Z :=
  match s with
  | "" => Some acc
  | String c s' =>
      match Ascii.is_nat c with
      | Some d => digits s' (10 * acc + Z.of_nat d)
      | None => None
      end
  end.

(** [repr(s)] of a byte string: single quotes, or double quotes when the
    text has an apostrophe and no double quote; the quote and the backslash
    escaped, tab, newline and return by letter, other bytes outside the
    printable range as [\xNN]. *)
Definition hex_digit (n : N) : ascii :=
  match n with
  | 0 => "0" | 1 => "1" | 2 => "2" | 3 => "3" | 4 => "4" | 5 => "5"
  | 6 => "6" | 7 => "7" | 8 => "8" | 9 => "9" | 10 => "a" | 11 => "b"
  | 12 => "c" | 13 => "d" | 14 => "e" | _ => "f"
  end%char%N.

Definition repr_char (quote c : ascii) : string :=
  let backslash : ascii := "092"%char in
  if bool_decide (c = quote) || bool_decide (c = backslash)
  then String backslash (String c "")
  else if bool_decide (c = "009"%char) then String backslash "t"
  else if bool_decide (c = "010"%char) then String backslash "n"
  else if bool_decide (c = "013"%char) then String backslash "r"
  else
    let n := N_of_ascii c in
    if ((n <? 32) || (127 <=? n))%N
    then String backslash
           (String "x" (String (hex_digit (n / 16)) (String (hex_digit (n mod 16)) "")))
    else String c "".

Fixpoint repr_body (quote : ascii) (s : string) : string :=
  match s with
  | "" => ""
  | String c s' => repr_char quote c +:+ repr_body quote s'
  end.

Definition repr (s : string) : string :=
  let apostrophe : ascii := "039"%char in
  let double : ascii := "034"%char in
  let quote :=
    if mem apostrophe s && negb (mem double s) then double else apostrophe in
  String quote (repr_body quote s +:+ String quote "").

Definition int_error (s : string) : PyExc :=
  ValueError ("invalid literal for int() with base 10: " +:+ repr s).

Definition int (s : string) : result Z :=
  let t := strip whitespace s in
  let '(neg, d) :=
    match t with
    | String "+" r => (false, r)
    | String "-" r => (true, r)
    | _ => (false, t)
    end in
  match d with
  | "" => Raise (int_error s)
  | _ =>
      match digits d 0 with
      | Some n => Ok (if neg : bool then - n else n)
      | None => Raise (int_error s)
      end
  end.

End PyStr.

(** ** Input records (produced by the replay decoders) *)

Module SlotData.
Record t := mk {
  handicap : Z;
  team_id : Z;
  control : Z;
  observe : Z;
  toon_handle : option string   (* [None] for Python's [None] *)
}.
End SlotData.

Module InitData.
Record t := mk {
  clan_tag : string;
  name : string;
  combined_race_levels : Z;
  highest_league : Z
}.
End InitData.

Module ColorData.
Record t := mk { a : Z; r : Z; g : Z; b : Z }.
End ColorData.

Module BnetData.
Record t := mk { gateway : Z; unknown2 : Z; subregion : Z; uid : Z }.
End BnetData.

Module DetailData.
Record t := mk {
  name : string;
  bnet : BnetData.t;
  race : string;
  color : ColorData.t;
  result : Z
}.
End DetailData.

(** ** Values and objects *)

#[local] Set Warnings "-register-all".
Inductive Val :=
| VNone
| VBool (b : bool)
| VInt (z : Z)
| VStr (s : string)
| VList (l : list Val)
| VSlot (d : SlotData.t)
| VInit (d : InitData.t)
| VDetail (d : DetailData.t)
| VAttrs (d : gmap string string)
| VColor (c : ColorData.t).
(** [VColor] stands for [utils.Color(a=.., r=.., g=.., b=..)]. The class is
    defined outside this module; the object is taken as the record of its
    four keyword arguments, and its construction as one that does not raise. *)

(** [str(v)], as [str.format] renders a field without a format spec. *)
Definition py_str (v : Val) : result string :=
  match v with
  | VNone => Ok "None"
  | VBool b => Ok (if b then "True" else "False")
  | VInt z => Ok (pretty z)
  | VStr s => Ok s
  | _ => Raise Unmodelled
  end.

(** [x or y] on an optional string: [None] and [""] are falsy. *)
Definition str_or (x : option string) (y : string) : string :=
  match x with
  | None | Some "" => y
  | Some s => s
  end.

Definition opt_str (x : option string) : Val :=
  match x with Some s => VStr s | None => VNone end.

(** [l[i]] *)
Definition index {A} (l : list A) (i : nat) : result A :=
  from_lookup (l !! i) IndexError.

(** *** [str.format] applied to keyword arguments

    Fields are plain names. [{{] and [}}] are the literal braces. A numbered
    or empty field asks for a positional argument, and there is none. A
    field with a format spec, a conversion, an attribute or an index is
    outside the model. The template is rendered left to right, so that of two
    faults the first one met is the one raised. *)

Inductive Segment :=
| Lit (s : string)
| Field (name : string)
| Malformed (e : PyExc).

Fixpoint template_go (s cur : string) (in_field : bool) : list Segment :=
  match s with
  | "" =>
      if in_field then [Malformed (ValueError "unmatched '{' in format")]
      else [Lit (String.rev cur)]
  | String c s' =>
      if in_field then
        if decide (c = "}"%char) then Field (String.rev cur) :: template_go s' "" false
        else if decide (c = "{"%char) then [Malformed Unmodelled]
        else template_go s' (String c cur) true
      else if decide (c = "{"%char) then
        match s' with
        | "" =>
            [Lit (String.rev cur);
             Malformed (ValueError "Single '{' encountered in format string")]
        | String c' s'' =>
            if decide (c' = "{"%char) then template_go s'' (String c cur) false
            else Lit (String.rev cur) :: template_go s' "" true
        end
      else if decide (c = "}"%char) then
        match s' with
        | "" =>
            [Lit (String.rev cur);
             Malformed (ValueError "Single '}' encountered in format string")]
        | String c' s'' =>
            if decide (c' = "}"%char) then template_go s'' (String c cur) false
            else [Lit (String.rev cur);
                  Malformed (ValueError "Single '}' encountered in format string")]
        end
      else template_go s' (String c cur) false
  end.

(** A field name with nothing but the name in it. *)
Fixpoint plain_name (n : string) : bool :=
  match n with
  | "" => true
  | String c n' => negb (PyStr.mem c ".[]:!") && plain_name n'
  end.

Definition format_segment (kwargs : gmap string Val) (seg : Segment) : result string :=
  match seg with
  | Lit s => Ok s
  | Malformed e => Raise e
  | Field n =>
      match PyStr.digits n 0 with
      | Some _ => Raise IndexError
      | None =>
          if plain_name n then v ← from_lookup (kwargs !! n) KeyError; py_str v
          else Raise Unmodelled
      end
  end.

Definition format (template : string) (kwargs : gmap string Val) : result string :=
  pieces ← mapR (format_segment kwargs) (template_go template "" false);
  Ok (PyStr.join "" pieces).

Inductive Class := Observer | Computer | Participant.

Record Obj := { cls : Class; __dict__ : gmap string Val }.

(** [p.attr] for an instance attribute *)
Definition getattr (p : Obj) (attr : string) : result Val :=
  from_lookup (__dict__ p !! attr) (AttributeError attr).

(** Does the class inherit from [User]? *)
Definition is_User (c : Class) : bool :=
  match c with Observer | Participant => true | Computer => false end.

(** Does the class inherit from [Player]? *)
Definition is_Player (c : Class) : bool :=
  match c with Computer | Participant => true | Observer => false end.

(** ** Score graphs *)

Section Graph.
Context {T V : Type}.

Record Graph := { times : list T; values : list V }.

(** One turn of [for x, y in xy_list]: both lists grow by one. *)
Definition Graph_append (self : Graph) (xy : T * V) : Graph :=
  {| times := times self ++ [xy.1]; values := values self ++ [xy.2] |}.

(** [Graph.__init__(self, x, y, xy_list=None)]. The test [if xy_list:] is
    on truthiness: [None] and the empty list both take the [else] branch,
    which stores [x] and [y] as they are. *)
Definition Graph_init (x : list T) (y : list V)
    (xy_list : option (list (T * V))) : Graph :=
  let self := {| times := []; values := [] |} in
  match xy_list with
  | Some (xy :: rest) => foldl Graph_append self (xy :: rest)
  | Some [] | None => {| times := x; values := y |}
  end.

(** [Graph.as_points]: the zipped list, and the object it leaves behind. *)
Definition as_points (self : Graph) : list (T * V) * Graph :=
  (zip (times self) (values self), self).

(** The two ways of building a series: from pairs (the positional [x] and
    [y] still have to be passed) and from two parallel sequences. *)
Definition from_samples (x : list T) (y : list V) (pairs : list (T * V)) : Graph :=
  Graph_init x y (Some pairs).
Definition from_parallel (x : list T) (y : list V) : Graph :=
  Graph_init x y None.
End Graph.
Arguments Graph : clear implicits.

(** ** Participants and teams *)

Module Team.
Record t := mk { number : Z; players : list Obj; result : string }.
End Team.

Section Objects.
(** The configuration tables of [sc2reader.constants] and the digest of
    [hashlib], which the module only consults. *)
Context (GATEWAY_LOOKUP : gmap Z string).
Context (LOCALIZED_RACES : gmap string string).
Context (LOBBY_PROPERTIES : gmap Z (string * gmap string Val)).
Context (sha256_hexdigest : string → string).

(** *** [Attribute] *)

(** [key in LOBBY_PROPERTIES] and [LOBBY_PROPERTIES[key]] for a table keyed
    by integers: [True] and [False] hash and compare as 1 and 0, no other
    value equals an integer key. *)
Definition lobby_get (key : Val) : option (string * gmap string Val) :=
  match key with
  | VInt z => LOBBY_PROPERTIES !! z
  | VBool b => LOBBY_PROPERTIES !! Z.b2z b
  | _ => None
  end.

(** [s + v] for a string [s]: only another string can be appended. *)
Definition str_add (s : string) (v : Val) : result string :=
  match v with
  | VStr t => Ok (s +:+ t)
  | _ => Raise TypeError
  end.

Definition Attribute_init (header attr_id player : Val) (value : string)
    : result (gmap string Val) :=
  let self : gmap string Val := ∅ in
  let self := <["header" := header]> self in
  let self := <["id" := attr_id]> self in
  let self := <["player" := player]> self in
  match lobby_get attr_id with
  | None =>
      msg ← str_add "Unknown attribute id: " attr_id;
      Raise (ValueError msg)
  | Some (name, lookup) =>
      let self := <["name" := VStr name]> self in
      v ← from_lookup
             (lookup !! PyStr.reversed (PyStr.strip (String "000" " ") value))
             KeyError;
      Ok (<["value" := v]> self)
  end.

(** *** [Entity], [Player], [User] *)

Definition Entity_init (sid : Z) (slot_data : SlotData.t)
    (self : gmap string Val) : result (gmap string Val) :=
  let self := <["sid" := VInt sid]> self in
  let self := <["slot_data" := VSlot slot_data]> self in
  let self := <["handicap" := VInt (SlotData.handicap slot_data)]> self in
  let self := <["team_id" := VInt (SlotData.team_id slot_data + 1)]> self in
  let self := <["is_human" := VBool (bool_decide (SlotData.control slot_data = 2))]> self in
  let self := <["is_observer" := VBool (bool_decide (SlotData.observe slot_data ≠ 0))]> self in
  let self := <["is_referee" := VBool (bool_decide (SlotData.observe slot_data = 2))]> self in
  let self := <["toon_handle" := opt_str (SlotData.toon_handle slot_data)]> self in
  let toon_handle := str_or (SlotData.toon_handle slot_data) "0-S2-0-0" in
  let parts := PyStr.split "-" toon_handle in
  region ← (p0 ← index parts 0; i ← PyStr.int p0;
            from_lookup (GATEWAY_LOOKUP !! i) KeyError);
  let self := <["region" := VStr region]> self in
  let self := <["gateway" := VStr region]> self in
  subregion ← (p2 ← index parts 2; PyStr.int p2);
  let self := <["subregion" := VInt subregion]> self in
  toon_id ← (p3 ← index parts 3; PyStr.int p3);
  let self := <["toon_id" := VInt toon_id]> self in
  let self := <["events" := VList []]> self in
  let self := <["messages" := VList []]> self in
  Ok self.

Definition Player_init (pid : Z) (detail_data : DetailData.t)
    (attribute_data : gmap string string)
    (self : gmap string Val) : result (gmap string Val) :=
  let self := <["pid" := VInt pid]> self in
  let self := <["detail_data" := VDetail detail_data]> self in
  let self := <["attribute_data" := VAttrs attribute_data]> self in
  let self := <["result" := VNone]> self in
  let self :=
    if decide (DetailData.result detail_data = 1) then <["result" := VStr "Win"]> self
    else if decide (DetailData.result detail_data = 2) then <["result" := VStr "Loss"]> self
    else self in
  let self := <["team" := VNone]> self in
  let self := <["pick_race" := VStr (default "Unknown" (attribute_data !! "Race"))]> self in
  let self := <["difficulty" := VStr (default "Unknown" (attribute_data !! "Difficulty"))]> self in
  let self := <["play_race" :=
      VStr (default (DetailData.race detail_data)
              (LOCALIZED_RACES !! DetailData.race detail_data))]> self in
  let self := <["color" := VColor (DetailData.color detail_data)]> self in
  let self := <["units" := VList []]> self in
  let self := <["killed_units" := VList []]> self in
  region ← from_lookup
    (GATEWAY_LOOKUP !! BnetData.gateway (DetailData.bnet detail_data)) KeyError;
  let self := <["region" := VStr region]> self in
  let self := <["gateway" := VStr region]> self in
  let self := <["subregion" := VInt (BnetData.subregion (DetailData.bnet detail_data))]> self in
  let self := <["toon_id" := VInt (BnetData.uid (DetailData.bnet detail_data))]> self in
  Ok self.

Definition User_init (uid : Z) (init_data : InitData.t)
    (self : gmap string Val) : result (gmap string Val) :=
  let self := <["uid" := VInt uid]> self in
  let self := <["init_data" := VInit init_data]> self in
  let self := <["clan_tag" := VStr (InitData.clan_tag init_data)]> self in
  let self := <["name" := VStr (InitData.name init_data)]> self in
  let self := <["combined_race_levels" := VInt (InitData.combined_race_levels init_data)]> self in
  let self := <["highest_league" := VInt (InitData.highest_league init_data)]> self in
  let self := <["recorder" := VNone]> self in
  Ok self.

Definition URL_TEMPLATE : string :=
  "http://{region}.battle.net/sc2/en/profile/{toon_id}/{subregion}/{name}/".

(** The [url] property of [User] *)
Definition User_url (self : gmap string Val) : result string :=
  format URL_TEMPLATE self.

(** [p.url]: the property exists on the classes that inherit [User]. *)
Definition url (p : Obj) : result string :=
  if is_User (cls p) then User_url (__dict__ p)
  else Raise (AttributeError "url").

(** *** The three compositions *)

Definition Observer_init (sid : Z) (slot_data : SlotData.t) (uid : Z)
    (init_data : InitData.t) (pid : Val) : result Obj :=
  self ← Entity_init sid slot_data ∅;
  self ← User_init uid init_data self;
  Ok {| cls := Observer; __dict__ := <["pid" := pid]> self |}.

Definition Computer_init (sid : Z) (slot_data : SlotData.t) (pid : Z)
    (detail_data : DetailData.t) (attribute_data : gmap string string)
    : result Obj :=
  self ← Entity_init sid slot_data ∅;
  self ← Player_init pid detail_data attribute_data self;
  Ok {| cls := Computer;
        __dict__ := <["name" := VStr (DetailData.name detail_data)]> self |}.

Definition Participant_init (sid : Z) (slot_data : SlotData.t) (uid : Z)
    (init_data : InitData.t) (pid : Z) (detail_data : DetailData.t)
    (attribute_data : gmap string string) : result Obj :=
  self ← Entity_init sid slot_data ∅;
  self ← User_init uid init_data self;
  self ← Player_init pid detail_data attribute_data self;
  Ok {| cls := Participant; __dict__ := self |}.

(** *** [Team] *)

Definition Team_init (number : Z) : Team.t :=
  {| Team.number := number; Team.players := []; Team.result := "Unknown" |}.

(** [team.players.append(p)], how callers put members on a team *)
Definition Team_add (t : Team.t) (p : Obj) : Team.t :=
  {| Team.number := Team.number t;
     Team.players := Team.players t ++ [p];
     Team.result := Team.result t |}.

(** [p.play_race[0].upper()] *)
Definition initial (play_race : Val) : result string :=
  match play_race with
  | VStr s => c ← PyStr.first s; Ok (PyStr.upper c)
  | VNone | VBool _ | VInt _ => Raise TypeError
  | _ => Raise Unmodelled
  end.

Definition race_initial (p : Obj) : result string :=
  v ← getattr p "play_race"; initial v.

Definition lineup (t : Team.t) : result string :=
  initials ← mapR race_initial (Team.players t);
  Ok (PyStr.join "" (PyStr.sorted initials)).

Definition hash (t : Team.t) : result string :=
  urls ← mapR url (Team.players t);
  let raw_hash := PyStr.join "," (PyStr.sorted urls) in
  Ok (sha256_hexdigest raw_hash).

End Objects.

(** ** Reading the outcome of a constructor *)

(** The attribute [attr] of the constructed object, or the exception. *)
Definition attr_of (r : result Obj) (attr : string) : result Val :=
  p ← r; getattr p attr.

(** The identity fields the handle parser fills in. *)
Definition handle_fields (r : result (gmap string Val))
    : result (option Val * option Val * option Val) :=
  self ← r; Ok (self !! "region", self !! "subregion", self !! "toon_id").

(** The name and the typed value a decoded attribute holds. *)
Definition decoded (r : result (gmap string Val))
    : result (option Val * option Val) :=
  self ← r; Ok (self !! "name", self !! "value").

(** The slot record with another account handle. *)
Definition with_handle (slot_data : SlotData.t) (handle : option string)
    : SlotData.t :=
  SlotData.mk (SlotData.handicap slot_data) (SlotData.team_id slot_data)
    (SlotData.control slot_data) (SlotData.observe slot_data) handle.

(** The profile URL for given identity fields. *)
Definition profile_url (region : string) (toon_id subregion : Z) (name : string)
    : string :=
  "http://" +:+ region +:+ ".battle.net/sc2/en/profile/" +:+ pretty toon_id
  +:+ "/" +:+ pretty subregion +:+ "/" +:+ name +:+ "/".

(** [p] is the object composed for a competitor: a full participant, or a
    computer player (which has no account record). *)
Definition composed (GATEWAY_LOOKUP : gmap Z string)
    (LOCALIZED_RACES : gmap string string) (p : Obj)
    (sid : Z) (slot_data : SlotData.t) (uid : Z) (init_data : InitData.t)
    (pid : Z) (detail_data : DetailData.t)
    (attribute_data : gmap string string) : Prop :=
  Participant_init GATEWAY_LOOKUP LOCALIZED_RACES
    sid slot_data uid init_data pid detail_data attribute_data = Ok p
  ∨ Computer_init GATEWAY_LOOKUP LOCALIZED_RACES
      sid slot_data pid detail_data attribute_data = Ok p.

(** Equal values, or an exception on both sides. *)
Definition same_outcome {A} (r1 r2 : result A) : Prop :=
  match r1, r2 with
  | Ok a1, Ok a2 => a1 = a2
  | Raise _, Raise _ => True
  | _, _ => False
  end.

(** What [Player.__init__] leaves in [result] for a result code. *)
Definition outcome (code : Z) : Val :=
  if decide (code = 1) then VStr "Win"
  else if decide (code = 2) then VStr "Loss"
  else VNone.

(** The outcome mapping in the words of the specification: 1 is a win, 2 a
    loss, anything else the string "Unknown". *)
Definition outcome_spec (code : Z) : Val :=
  if decide (code = 1) then VStr "Win"
  else if decide (code = 2) then VStr "Loss"
  else VStr "Unknown".

(** The padding bytes of an attribute value: NUL and space. *)
Definition padding : string := String "000" " ".


Fixpoint all_padding (s : string) : Prop :=
  match s with
  | "" => True
  | String c s' => PyStr.mem c padding = true ∧ all_padding s'
  end.

(** ** Sample inputs *)

Module Sample.
Definition GATEWAY_LOOKUP : gmap Z string :=
  {[ 0 := ""; 1 := "us"; 2 := "eu"; 3 := "kr" ]}.
Definition LOCALIZED_RACES : gmap string string :=
  {[ "zerg" := "Zerg"; "terr" := "Terran"; "prot" := "Protoss" ]}.
Definition controller : gmap string Val :=
  {[ "Humn" := VStr "Human"; "Comp" := VStr "Computer" ]}.
Definition game_type : gmap string Val :=
  {[ "1v1" := VStr "1v1"; "2v2" := VStr "2v2" ]}.
Definition LOBBY_PROPERTIES : gmap Z (string * gmap string Val) :=
  {[ 500 := ("Controller", controller); 2001 := ("Game Type", game_type) ]}.
(** A stand-in digest for running the model: the input itself. *)
Definition digest (s : string) : string := s.

Definition color : ColorData.t := ColorData.mk 255 180 20 30.
Definition slot (team : Z) (handle : option string) : SlotData.t :=
  SlotData.mk 100 team 2 0 handle.
Definition account (name : string) : InitData.t := InitData.mk "" name 0 0.
Definition detail (name race : string) (code uid : Z) : DetailData.t :=
  DetailData.mk name (BnetData.mk 1 0 2 uid) race color code.

Definition alice : result Obj :=
  Participant_init GATEWAY_LOOKUP LOCALIZED_RACES 0 (slot 0 (Some "1-S2-2-555"))
    0 (account "Alice") 1 (detail "Alice" "zerg" 1 555) ∅.
(** Offline handle, detail record of account 777, unknown result code *)
Definition bob : result Obj :=
  Participant_init GATEWAY_LOOKUP LOCALIZED_RACES 1 (slot 0 None)
    1 (account "Bob") 2 (detail "Bob" "terr" 0 777) ∅.
Definition carol : result Obj :=
  Participant_init GATEWAY_LOOKUP LOCALIZED_RACES 2 (slot 0 (Some ""))
    2 (account "Carol") 3 (detail "Carol" "prot" 2 888) ∅.
Definition ai : result Obj :=
  Computer_init GATEWAY_LOOKUP LOCALIZED_RACES 3 (slot 1 None)
    4 (detail "A.I. 1 (Hard)" "terr" 2 0) {[ "Difficulty" := "Hard" ]}.

Definition unwrap (r : result Obj) : Obj :=
  match r with
  | Ok p => p
  | Raise _ => {| cls := Observer; __dict__ := ∅ |}
  end.

Definition team_of (ps : list Obj) : Team.t := foldl Team_add (Team_init 1) ps.
End Sample.

(** ** Text forms and further observations *)

(** [template.format(a0, a1, ...)] with numbered fields [{0}], [{1}], ...: a
    numbered field takes the argument at that position (IndexError beyond the
    last), a named field finds no keyword argument (KeyError). *)
Definition format_args_segment (args : list Val) (seg : Segment) : result string :=
  match seg with
  | Lit s => Ok s
  | Malformed e => Raise e
  | Field "" => Raise Unmodelled   (* automatic numbering, not used here *)
  | Field n =>
      match PyStr.digits n 0 with
      | Some i => v ← from_lookup (args !! Z.to_nat i) IndexError; py_str v
      | None => if plain_name n then Raise KeyError else Raise Unmodelled
      end
  end.

Definition format_args (template : string) (args : list Val) : result string :=
  pieces ← mapR (format_args_segment args) (template_go template "" false);
  Ok (PyStr.join "" pieces).

(** [Team.__str__] *)
Definition Team_str (t : Team.t) : result string :=
  format_args "Team {0}" [VInt (Team.number t)].

(** [Team.__iter__], consumed to the end *)
Definition Team_iter (t : Team.t) : list Obj := Team.players t.

(** [Observer.__str__] *)
Definition Observer_str (p : Obj) : result string :=
  uid ← getattr p "uid";
  name ← getattr p "name";
  format_args "Observer {0} - {1}" [uid; name].

(** [Computer.__str__] and [Participant.__str__], which read alike *)
Definition Player_str (p : Obj) : result string :=
  pid ← getattr p "pid";
  name ← getattr p "name";
  play_race ← getattr p "play_race";
  format_args "Player {0} - {1} ({2})" [pid; name; play_race].

(** [str(p)], by the class of [p] *)
Definition Obj_str (p : Obj) : result string :=
  match cls p with
  | Observer => Observer_str p
  | Computer | Participant => Player_str p
  end.

(** [Entity.format] *)
Definition Entity_format (p : Obj) (format_string : string) : result string :=
  format format_string (__dict__ p).

(** [Graph.__str__] *)
Definition Graph_str {T V} (self : Graph T V) : result string :=
  format_args "Graph with {0} values" [VInt (Z.of_nat (length (times self)))].

(** An account handle as the replay writes it:
    [<region_id>-<tag>-<subregion>-<toon_id>], the tag being "S2". *)
Definition handle_of (region_id : Z) (tag : string) (subregion toon_id : Z)
    : string :=
  pretty region_id +:+ "-" +:+ tag +:+ "-" +:+ pretty subregion
  +:+ "-" +:+ pretty toon_id.

(** The byte [c] does not occur in [s]. *)
Fixpoint lacks (c : ascii) (s : string) : Prop :=
  match s with
  | "" => True
  | String c' s' => c' ≠ c ∧ lacks c s'
  end.

(** [s] is made of decimal digits only. *)
Fixpoint digit_string (s : string) : Prop :=
  match s with
  | "" => True
  | String c s' => is_Some (Ascii.is_nat c) ∧ digit_string s'
  end.

(** The role flags [Entity.__init__] derives from the slot. *)
Definition role_flags (self : gmap string Val)
    : option Val * option Val * option Val :=
  (self !! "is_human", self !! "is_observer", self !! "is_referee").

(** [p] is an object one of the three constructors built from [slot_data]. *)
Definition constructed (GATEWAY_LOOKUP : gmap Z string)
    (LOCALIZED_RACES : gmap string string) (p : Obj) (slot_data : SlotData.t)
    : Prop :=
  (∃ sid uid init_data pid,
      Observer_init GATEWAY_LOOKUP sid slot_data uid init_data pid = Ok p)
  ∨ ∃ sid uid init_data pid detail_data attribute_data,
      composed GATEWAY_LOOKUP LOCALIZED_RACES
        p sid slot_data uid init_data pid detail_data attribute_data.

(** The attributes [Entity.__init__] does not write. *)
Definition Entity_untouched : list string :=
  ["play_race"; "pick_race"; "difficulty"; "result"; "team"; "name"; "uid"; "pid"].

(** [p] is a competitor: a full participant or a computer player, built
    by its constructor from some records. *)
Definition competitor (GATEWAY_LOOKUP : gmap Z string)
    (LOCALIZED_RACES : gmap string string) (p : Obj) : Prop :=
  ∃ sid slot_data uid init_data pid detail_data attribute_data,
    composed GATEWAY_LOOKUP LOCALIZED_RACES
      p sid slot_data uid init_data pid detail_data attribute_data.

(** The text of a competitor: [Player <pid> - <name> (<race>)]. *)
Definition player_text (pid : Z) (name play_race : string) : string :=
  "Player " +:+ pretty pid +:+ " - " +:+ name +:+ " (" +:+ play_race +:+ ")".

(** The team hash and the lineup in the words of the specification. *)


(** The texts of [l], one after the other. *)
Fixpoint concatenated (l : list string) : string :=
  match l with
  | [] => ""
  | u :: rest => u +:+ concatenated rest
  end.

(** The capital of a small letter, any other byte as it is: the letter at
    the same place in the alphabet of capitals. *)
Fixpoint paired (c : ascii) (small capital : string) : ascii :=
  match small, capital with
  | String a small', String b capital' =>
      if decide (c = a) then b else paired c small' capital'
  | _, _ => c
  end.

Definition upper_spec (c : ascii) : ascii :=
  paired c "abcdefghijklmnopqrstuvwxyz" "ABCDEFGHIJKLMNOPQRSTUVWXYZ".

(** The initial of a played race, as a capital. *)
Definition initial_spec (race : string) : string :=
  match race with
  | "" => ""
  | String c _ => String (upper_spec c) ""
  end.

(** The played race of a member, as text. *)
Definition played_race (p : Obj) : result string :=
  v ← getattr p "play_race";
  match v with
  | VStr s => Ok s
  | _ => Raise TypeError
  end.

Module Demo.
Definition observer_slot (kind : Z) (handle : option string) : SlotData.t :=
  SlotData.mk 100 0 2 kind handle.
Definition dave : result Obj :=
  Observer_init Sample.GATEWAY_LOOKUP 4 (observer_slot 2 (Some "2-S2-1-4242"))
    3 (Sample.account "Dave") VNone.
(** A detail record whose raw race has no localized form and is empty *)
Definition nameless : result Obj :=
  Computer_init Sample.GATEWAY_LOOKUP Sample.LOCALIZED_RACES 5
    (Sample.slot 1 None) 6 (Sample.detail "A.I. 2" "" 0 0) ∅.
(** A participant whose race comes through as the detail record has it,
    there being no localization table *)
Definition raw_player (name race : string) : result Obj :=
  Participant_init Sample.GATEWAY_LOOKUP ∅ 0 (Sample.slot 0 None)
    0 (Sample.account name) 1 (Sample.detail name race 0 0) ∅.
End Demo.

(** * Checks on concrete inputs *)

Example strip_both_ends :
  PyStr.strip padding (String "000" " nmuH " +:+ String "000" "") = "nmuH".
Proof. reflexivity. Qed.
Example rstrip_keeps_front : PyStr.rstrip padding " nmuH  " = " nmuH".
Proof. reflexivity. Qed.
Example split_handle : PyStr.split "-" "1-S2-2-555" = ["1"; "S2"; "2"; "555"].
Proof. reflexivity. Qed.
Example split_empty : PyStr.split "-" "" = [""].
Proof. reflexivity. Qed.
Example int_555 : PyStr.int " +555 " = Ok 555.
Proof. reflexivity. Qed.
Example int_S2 : PyStr.int "S2" = Raise (PyStr.int_error "S2").
Proof. reflexivity. Qed.
Example sorted_ex : PyStr.sorted ["b"; "a"; "Z"; "ab"] = ["Z"; "a"; "ab"; "b"].
Proof. vm_compute. reflexivity. Qed.
Example upper_ex : PyStr.upper "zerg-1" = "ZERG-1".
Proof. reflexivity. Qed.
Example pretty_ex : pretty (-12) = "-12" ∧ pretty 0 = "0".
Proof. split; reflexivity. Qed.
Example format_ex :
  format "a{x}/{y}b" {["x" := VInt 5; "y" := VStr "q"]} = Ok "a5/qb".
Proof. vm_compute. reflexivity. Qed.

(** The end-to-end example: a human on team 1 who won, with a profile URL
    that carries the account id. *)
Example alice_composed :
  attr_of Sample.alice "is_human" = Ok (VBool true) ∧
  attr_of Sample.alice "team_id" = Ok (VInt 1) ∧
  attr_of Sample.alice "result" = Ok (VStr "Win") ∧
  attr_of Sample.alice "play_race" = Ok (VStr "Zerg") ∧
  (p ← Sample.alice; url p) = Ok "http://us.battle.net/sc2/en/profile/555/2/Alice/".
Proof. vm_compute. repeat split; reflexivity. Qed.

Example bob_url :
  (p ← Sample.bob; url p) = Ok "http://us.battle.net/sc2/en/profile/777/2/Bob/".
Proof. vm_compute. reflexivity. Qed.

Example ai_has_no_url :
  (p ← Sample.ai; url p) = Raise (AttributeError "url").
Proof. vm_compute. reflexivity. Qed.

Example lineup_ex :
  lineup (Sample.team_of (Sample.unwrap <$> [Sample.alice; Sample.bob; Sample.carol]))
  = Ok "PTZ".
Proof. vm_compute. reflexivity. Qed.

(** * Score graphs *)

Section GraphFacts.
Context {T V : Type}.
Implicit Types (x : list T) (y : list V) (ps : list (T * V)).

Lemma foldl_Graph_append ps (g : Graph T V) :
  foldl Graph_append g ps
  = {| times := times g ++ ps.*1; values := values g ++ ps.*2 |}.
Proof.
  revert g. induction ps as [|[t v] ps IH]; intros [ts vs]; simpl.
  - by rewrite !app_nil_r.
  - rewrite IH. simpl. by rewrite <-!app_assoc.
Qed.

Lemma Graph_init_pairs x y ps :
  ps ≠ [] →
  Graph_init x y (Some ps) = {| times := ps.*1; values := ps.*2 |}.
Proof.
  destruct ps as [|p ps]; [done|]. intros _.
  unfold Graph_init. by rewrite foldl_Graph_append.
Qed.

Lemma Graph_init_no_pairs x y :
  Graph_init x y (Some []) = {| times := x; values := y |}
  ∧ Graph_init x y None = {| times := x; values := y |}.
Proof. done. Qed.

Lemma zip_fst_snd ps : zip ps.*1 ps.*2 = ps.
Proof. induction ps as [|[??] ? IH]; csimpl; [done|]. by rewrite IH. Qed.
End GraphFacts.

(** C8, as the claim has it, fails: an empty list of pairs is falsy, so the
    constructor keeps the positional [x] and [y] it was given with it, while
    the split of the empty list is two empty sequences. *)
Lemma Graph_paths_differ_on_empty_pairs :
  ¬ (∀ (x y : list Z) (pairs : list (Z * Z)),
        from_samples x y pairs = from_parallel pairs.*1 pairs.*2).
Proof. intros H. specialize (H [7] [8] []). discriminate H. Qed.

(** C8 (amended). For every non-empty list of pairs, whatever is passed as
    [x] and [y] with it, and for the empty list when [x] and [y] are empty
    too, building from the pairs and building from the two split sequences
    give the same state; [as_points] on either returns the pairs and leaves
    the state as it was, so that every later call returns them again. *)
Theorem Graph_paths_agree {T V} (x : list T) (y : list V) (pairs : list (T * V)) :
  pairs ≠ [] ∨ (x = [] ∧ y = []) →
  let g1 := from_samples x y pairs in
  let g2 := from_parallel pairs.*1 pairs.*2 in
  g1 = g2
  ∧ as_points g1 = (pairs, g1)
  ∧ as_points g2 = (pairs, g2)
  ∧ as_points (as_points g1).2 = (pairs, g1)
  ∧ as_points (as_points g2).2 = (pairs, g2).
Proof.
  intros Hne. cbv zeta.
  assert (from_samples x y pairs = from_parallel pairs.*1 pairs.*2) as Heq.
  { unfold from_samples, from_parallel.
    destruct Hne as [Hne|[-> ->]].
    - by rewrite Graph_init_pairs.
    - destruct pairs as [|p ps]; [done|]. by rewrite Graph_init_pairs. }
  assert (as_points (from_parallel pairs.*1 pairs.*2)
          = (pairs, from_parallel pairs.*1 pairs.*2)) as Hpts.
  { unfold as_points, from_parallel. simpl. by rewrite zip_fst_snd. }
  assert (∀ g : Graph T V, as_points (as_points g).2 = as_points g) as Hrep
    by done.
  rewrite !Hrep, Heq, Hpts. done.
Qed.

Lemma Graph_paths_agree_example :
  let g1 := from_samples [] [] [(0, 10); (5, 20)] in
  let g2 := from_parallel [0; 5] [10; 20] in
  g1 = g2
  ∧ as_points g1 = ([(0, 10); (5, 20)], g1)
  ∧ as_points g2 = ([(0, 10); (5, 20)], g2)
  ∧ as_points (as_points g1).2 = ([(0, 10); (5, 20)], g1)
  ∧ as_points (as_points g2).2 = ([(0, 10); (5, 20)], g2).
Proof.
  apply (Graph_paths_agree (T:=Z) (V:=Z) [] [] [(0, 10); (5, 20)]).
  left. discriminate.
Defined.

(** C9, as the claim has it, fails: two parallel sequences are stored as
    they come, whatever their lengths. *)
Lemma Graph_lengths_can_differ :
  ¬ (∀ (x y : list Z) (xy_list : option (list (Z * Z))),
        length (times (Graph_init x y xy_list))
        = length (values (Graph_init x y xy_list))).
Proof. intros H. specialize (H [1; 2] [1] None). discriminate H. Qed.

(** C9 (amended). A series built from a non-empty list of pairs has as many
    times as values, one per pair. A series built from two parallel
    sequences keeps both as given, so its times and values have equal length
    exactly when the two sequences did; [as_points] stops at the shorter. *)
Theorem Graph_lengths {T V} (x : list T) (y : list V) (pairs : list (T * V)) :
  (pairs ≠ [] →
     length (times (from_samples x y pairs)) = length pairs
     ∧ length (values (from_samples x y pairs)) = length pairs)
  ∧ length (times (from_parallel x y)) = length x
  ∧ length (values (from_parallel x y)) = length y
  ∧ (length (times (from_parallel x y)) = length (values (from_parallel x y))
     ↔ length x = length y)
  ∧ length (as_points (from_parallel x y)).1 = (length x `min` length y)%nat.
Proof.
  split; [|split; [done|split; [done|split; [done|]]]].
  - intros Hne. unfold from_samples. rewrite Graph_init_pairs by done.
    simpl. by rewrite !length_fmap.
  - unfold as_points, from_parallel. simpl. apply length_zip_with.
Qed.

Lemma Graph_lengths_example :
  (length (times (from_samples [] [] [(0, 10); (5, 20)])) = 2%nat
   ∧ length (values (from_samples [] [] [(0, 10); (5, 20)])) = 2%nat)
  ∧ length (times (from_parallel [1; 2] [1])) = 2%nat
  ∧ length (values (from_parallel [1; 2] [1])) = 1%nat.
Proof.
  pose proof (Graph_lengths (T:=Z) (V:=Z) [] [] [(0, 10); (5, 20)]) as (H1 & _).
  pose proof (Graph_lengths (T:=Z) (V:=Z) [1; 2] [1] []) as (_ & H2 & H3 & _).
  split; [apply H1; discriminate|]. split; [exact H2 | exact H3].
Defined.

(** * Role composition *)

Lemma bind_Ok {A B} (m : result A) (f : A → result B) (b : B) :
  (a ← m; f a) = Ok b → ∃ a, m = Ok a ∧ f a = Ok b.
Proof. destruct m as [a|e]; simpl; [eauto|done]. Qed.

Ltac flag_cases Hk :=
  rewrite !elem_of_cons, elem_of_nil in Hk; destruct Hk as [->|[->|[->|[]]]].
Ltac in_list :=
  repeat first [apply list_elem_of_here | apply list_elem_of_further].

Ltac map_lookup :=
  repeat first
    [ rewrite lookup_insert_eq
    | rewrite lookup_insert_ne by done ].

Section ObjectFacts.
Context (GATEWAY_LOOKUP : gmap Z string).
Context (LOCALIZED_RACES : gmap string string).

Local Abbreviation Entity_init := (Entity_init GATEWAY_LOOKUP).
Local Abbreviation Player_init := (Player_init GATEWAY_LOOKUP LOCALIZED_RACES).
Local Abbreviation composed := (composed GATEWAY_LOOKUP LOCALIZED_RACES).

Lemma Entity_init_team_id sid slot_data self self' :
  Entity_init sid slot_data self = Ok self' →
  self' !! "team_id" = Some (VInt (SlotData.team_id slot_data + 1)).
Proof.
  unfold Entity_init.
  destruct (_ ← index _ 0; _) as [region|]; simpl; [|done].
  destruct (_ ← index _ 2; _) as [subregion|]; simpl; [|done].
  destruct (_ ← index _ 3; _) as [toon_id|]; simpl; [|done].
  intros [= <-]. by map_lookup.
Qed.

Lemma User_init_spec uid init_data self self' :
  User_init uid init_data self = Ok self' →
  self' !! "name" = Some (VStr (InitData.name init_data))
  ∧ self' !! "team_id" = self !! "team_id".
Proof. intros [= <-]. by map_lookup. Qed.

(** What [Player.__init__] writes, and two attributes it leaves alone. *)
Lemma Player_init_spec pid detail_data attribute_data self self' :
  Player_init pid detail_data attribute_data self = Ok self' →
  ∃ region,
    GATEWAY_LOOKUP !! BnetData.gateway (DetailData.bnet detail_data) = Some region
    ∧ self' !! "result" = Some (outcome (DetailData.result detail_data))
    ∧ self' !! "region" = Some (VStr region)
    ∧ self' !! "gateway" = Some (VStr region)
    ∧ self' !! "subregion"
      = Some (VInt (BnetData.subregion (DetailData.bnet detail_data)))
    ∧ self' !! "toon_id" = Some (VInt (BnetData.uid (DetailData.bnet detail_data)))
    ∧ self' !! "team_id" = self !! "team_id"
    ∧ self' !! "name" = self !! "name".
Proof.
  unfold Player_init, outcome.
  destruct (GATEWAY_LOOKUP !! _) as [region|]; simpl; [|done].
  intros [= <-]. exists region. split; [done|].
  repeat case_decide; by map_lookup.
Qed.

Lemma format_URL_TEMPLATE self region toon_id subregion name :
  self !! "region" = Some (VStr region) →
  self !! "toon_id" = Some (VInt toon_id) →
  self !! "subregion" = Some (VInt subregion) →
  self !! "name" = Some (VStr name) →
  User_url self = Ok (profile_url region toon_id subregion name).
Proof.
  intros Hr Ht Hs Hn. unfold User_url, format.
  change (template_go URL_TEMPLATE "" false)
    with [Lit "http://"; Field "region"; Lit ".battle.net/sc2/en/profile/";
          Field "toon_id"; Lit "/"; Field "subregion"; Lit "/";
          Field "name"; Lit "/"].
  assert (∀ n v, n ∈ ["region"; "toon_id"; "subregion"; "name"] →
            self !! n = Some v → format_segment self (Field n) = py_str v) as Hf.
  { intros n v Hn' Hv. rewrite !elem_of_cons, elem_of_nil in Hn'.
    destruct Hn' as [->|[->|[->|[->|[]]]]]; unfold format_segment;
      match goal with
      | |- context [PyStr.digits ?n 0] =>
          change (PyStr.digits n 0) with (@None Z);
          change (plain_name n) with true
      end; by rewrite Hv. }
  cbn [mapR].
  rewrite (Hf "region" _), (Hf "toon_id" _), (Hf "subregion" _), (Hf "name" _)
    by (done || in_list).
  reflexivity.
Qed.

Lemma composed_Player p sid slot_data uid init_data pid detail_data attribute_data :
  composed p sid slot_data uid init_data pid detail_data attribute_data →
  ∃ self0 self,
    Entity_init sid slot_data ∅ = Ok self0
    ∧ self !! "team_id" = self0 !! "team_id"
    ∧ (cls p = Participant → self !! "name" = Some (VStr (InitData.name init_data)))
    ∧ ∃ self',
        Player_init pid detail_data attribute_data self = Ok self'
        ∧ ∀ k, k ≠ "name" → __dict__ p !! k = self' !! k.
Proof.
  intros [H|H].
  - apply bind_Ok in H as (self0 & HE & H).
    apply bind_Ok in H as (self & HU & H).
    apply bind_Ok in H as (self' & HP & [= <-]).
    apply User_init_spec in HU as [Hn Ht].
    exists self0, self. eauto 10.
  - apply bind_Ok in H as (self0 & HE & H).
    apply bind_Ok in H as (self' & HP & [= <-]).
    exists self0, self0. simpl.
    split; [done|]. split; [done|]. split; [done|].
    exists self'. split; [done|]. intros k Hk. by rewrite lookup_insert_ne.
Qed.
End ObjectFacts.

Section Composition.
Context (GATEWAY_LOOKUP : gmap Z string).
Context (LOCALIZED_RACES : gmap string string).

Local Abbreviation Entity_init := (Entity_init GATEWAY_LOOKUP).
Local Abbreviation composed := (composed GATEWAY_LOOKUP LOCALIZED_RACES).

(** C1 (amended). For every detail record, the outcome of the composed
    participant is fixed by the numeric result code: 1 gives "Win", 2 gives
    "Loss", and every other code leaves the outcome [None]. *)
Theorem Player_result_by_code
    p sid slot_data uid init_data pid detail_data attribute_data :
  composed p sid slot_data uid init_data pid detail_data attribute_data →
  getattr p "result" = Ok (outcome (DetailData.result detail_data))
  ∧ (DetailData.result detail_data = 1 → getattr p "result" = Ok (VStr "Win"))
  ∧ (DetailData.result detail_data = 2 → getattr p "result" = Ok (VStr "Loss"))
  ∧ (DetailData.result detail_data ≠ 1 → DetailData.result detail_data ≠ 2 →
     getattr p "result" = Ok VNone).
Proof.
  intros (self0 & self & _ & _ & _ & self' & HP & Hp)%composed_Player.
  apply Player_init_spec in HP as (region & _ & Hres & _).
  assert (getattr p "result" = Ok (outcome (DetailData.result detail_data))) as ->.
  { unfold getattr. by rewrite Hp, Hres. }
  unfold outcome. split; [done|].
  repeat split; intros; repeat case_decide; done || lia.
Qed.

(** C7. For every slot, account and detail+attributes for which the
    composition succeeds, the participant's team number is the slot's
    zero-based team index plus one. *)
Theorem Participant_team_number
    p sid slot_data uid init_data pid detail_data attribute_data :
  Participant_init GATEWAY_LOOKUP LOCALIZED_RACES
    sid slot_data uid init_data pid detail_data attribute_data = Ok p →
  getattr p "team_id" = Ok (VInt (SlotData.team_id slot_data + 1)).
Proof.
  intros H.
  assert (composed p sid slot_data uid init_data pid detail_data attribute_data)
    as (self0 & self & HE & Ht & _ & self' & HP & Hp)%composed_Player
    by (by left).
  apply Player_init_spec in HP as (region & _ & _ & _ & _ & _ & _ & Ht' & _).
  apply Entity_init_team_id in HE.
  unfold getattr. by rewrite Hp, Ht', Ht, HE.
Qed.

(** C10. For every full participant and every computer player, the final
    region, gateway, subregion and toon_id are those of the detail
    record's Battle.net tuple, whatever the slot's account handle had put
    there: [Player.__init__] runs after [Entity.__init__]. The profile URL
    of a full participant is therefore built from the detail record's
    account id. *)
Theorem Player_identity_overrides_handle
    p sid slot_data uid init_data pid detail_data attribute_data :
  composed p sid slot_data uid init_data pid detail_data attribute_data →
  let bnet := DetailData.bnet detail_data in
  ∃ region,
    GATEWAY_LOOKUP !! BnetData.gateway bnet = Some region
    ∧ getattr p "region" = Ok (VStr region)
    ∧ getattr p "gateway" = Ok (VStr region)
    ∧ getattr p "subregion" = Ok (VInt (BnetData.subregion bnet))
    ∧ getattr p "toon_id" = Ok (VInt (BnetData.uid bnet))
    ∧ (cls p = Participant →
       url p = Ok (profile_url region (BnetData.uid bnet)
                     (BnetData.subregion bnet) (InitData.name init_data))).
Proof.
  intros Hc. pose proof Hc as Hcls.
  apply composed_Player in Hc as (self0 & self & _ & _ & Hn & self' & HP & Hp).
  apply Player_init_spec in HP as (region & HG & _ & Hr & Hg & Hs & Ht & _ & Hn').
  simpl. exists region. unfold getattr.
  rewrite !Hp by done. rewrite Hr, Hg, Hs, Ht.
  do 5 (split; [done|]).
  intros Hp'. unfold url. rewrite Hp'. simpl.
  apply format_URL_TEMPLATE; rewrite ?Hp by done; try done.
  destruct Hcls as [H|H].
  - apply bind_Ok in H as (? & _ & H).
    apply bind_Ok in H as (s1 & [Hname _]%User_init_spec & H).
    apply bind_Ok in H as (s2 & (? & _ & _ & _ & _ & _ & _ & _ & Hk)%Player_init_spec
                              & [= <-]).
    simpl. by rewrite Hk.
  - apply bind_Ok in H as (? & _ & H).
    apply bind_Ok in H as (? & _ & [= <-]). done.
Qed.

(** C6. An empty or missing account handle is parsed as the placeholder
    "0-S2-0-0": the region, subregion and account id come out as they do
    for that literal string, and, the gateway table having an entry for id
    0, parsing succeeds with that entry as region, subregion 0 and account
    id 0. *)
Theorem Entity_empty_handle_is_placeholder sid slot_data self :
  SlotData.toon_handle slot_data = None ∨ SlotData.toon_handle slot_data = Some "" →
  handle_fields (Entity_init sid slot_data self)
  = handle_fields (Entity_init sid (with_handle slot_data (Some "0-S2-0-0")) self)
  ∧ ∀ region, GATEWAY_LOOKUP !! 0 = Some region →
      handle_fields (Entity_init sid slot_data self)
      = Ok (Some (VStr region), Some (VInt 0), Some (VInt 0)).
Proof.
  intros Hh.
  assert (∀ sd, str_or (SlotData.toon_handle sd) "0-S2-0-0" = "0-S2-0-0" →
            handle_fields (Entity_init sid sd self)
            = region ← from_lookup (GATEWAY_LOOKUP !! 0) KeyError;
              Ok (Some (VStr region), Some (VInt 0), Some (VInt 0))) as Hparse.
  { intros sd Hsd. unfold Entity_init. rewrite Hsd.
    change (PyStr.split "-" "0-S2-0-0") with ["0"; "S2"; "0"; "0"].
    simpl. change (10 * 0 + Z.of_nat 0) with 0.
    destruct (GATEWAY_LOOKUP !! 0) as [region|]; simpl; [|done].
    by map_lookup. }
  assert (str_or (SlotData.toon_handle slot_data) "0-S2-0-0" = "0-S2-0-0") as Hs
    by (by destruct Hh as [-> | ->]).
  split.
  - by rewrite !Hparse.
  - intros region HG. by rewrite Hparse, HG.
Qed.
End Composition.

(** C1, as the claim has it, fails: a result code other than 1 and 2 leaves
    the outcome [None], not the string "Unknown". *)
Lemma Player_result_other_is_not_Unknown :
  ¬ (∀ GATEWAY_LOOKUP LOCALIZED_RACES
       p sid slot_data uid init_data pid detail_data attribute_data,
        composed GATEWAY_LOOKUP LOCALIZED_RACES
          p sid slot_data uid init_data pid detail_data attribute_data →
        getattr p "result" = Ok (outcome_spec (DetailData.result detail_data))).
Proof.
  intros H.
  specialize (H Sample.GATEWAY_LOOKUP Sample.LOCALIZED_RACES (Sample.unwrap Sample.bob)
                1 (Sample.slot 0 None) 1 (Sample.account "Bob")
                2 (Sample.detail "Bob" "terr" 0 777) ∅).
  assert (getattr (Sample.unwrap Sample.bob) "result" = Ok VNone) as Hnone
    by (vm_compute; reflexivity).
  rewrite Hnone in H. discriminate H. left. vm_compute. reflexivity.
Qed.

Lemma Player_result_by_code_example :
  getattr (Sample.unwrap Sample.alice) "result" = Ok (VStr "Win")
  ∧ getattr (Sample.unwrap Sample.carol) "result" = Ok (VStr "Loss")
  ∧ getattr (Sample.unwrap Sample.bob) "result" = Ok VNone.
Proof.
  split; [|split].
  - eapply (Player_result_by_code Sample.GATEWAY_LOOKUP Sample.LOCALIZED_RACES
              (Sample.unwrap Sample.alice) 0 (Sample.slot 0 (Some "1-S2-2-555"))
              0 (Sample.account "Alice") 1 (Sample.detail "Alice" "zerg" 1 555) ∅).
    + left. vm_compute. reflexivity.
    + reflexivity.
  - eapply (Player_result_by_code Sample.GATEWAY_LOOKUP Sample.LOCALIZED_RACES
              (Sample.unwrap Sample.carol) 2 (Sample.slot 0 (Some ""))
              2 (Sample.account "Carol") 3 (Sample.detail "Carol" "prot" 2 888) ∅).
    + left. vm_compute. reflexivity.
    + reflexivity.
  - eapply (Player_result_by_code Sample.GATEWAY_LOOKUP Sample.LOCALIZED_RACES
              (Sample.unwrap Sample.bob) 1 (Sample.slot 0 None)
              1 (Sample.account "Bob") 2 (Sample.detail "Bob" "terr" 0 777) ∅).
    + left. vm_compute. reflexivity.
    + simpl. lia.
    + simpl. lia.
Defined.

Lemma Participant_team_number_example :
  getattr (Sample.unwrap Sample.alice) "team_id" = Ok (VInt (0 + 1)).
Proof.
  apply (Participant_team_number Sample.GATEWAY_LOOKUP Sample.LOCALIZED_RACES
           (Sample.unwrap Sample.alice) 0 (Sample.slot 0 (Some "1-S2-2-555"))
           0 (Sample.account "Alice") 1 (Sample.detail "Alice" "zerg" 1 555) ∅).
  vm_compute. reflexivity.
Defined.

(** Bob's slot has no handle (account id 0 once parsed); his detail record
    names account 777, and that is what the object and its URL end with. *)
Lemma Player_identity_overrides_handle_example :
  ∃ region,
    Sample.GATEWAY_LOOKUP !! 1 = Some region
    ∧ getattr (Sample.unwrap Sample.bob) "region" = Ok (VStr region)
    ∧ getattr (Sample.unwrap Sample.bob) "gateway" = Ok (VStr region)
    ∧ getattr (Sample.unwrap Sample.bob) "subregion" = Ok (VInt 2)
    ∧ getattr (Sample.unwrap Sample.bob) "toon_id" = Ok (VInt 777)
    ∧ (cls (Sample.unwrap Sample.bob) = Participant →
       url (Sample.unwrap Sample.bob) = Ok (profile_url region 777 2 "Bob")).
Proof.
  apply (Player_identity_overrides_handle Sample.GATEWAY_LOOKUP Sample.LOCALIZED_RACES
           (Sample.unwrap Sample.bob) 1 (Sample.slot 0 None)
           1 (Sample.account "Bob") 2 (Sample.detail "Bob" "terr" 0 777) ∅).
  left. vm_compute. reflexivity.
Defined.

Lemma Entity_empty_handle_is_placeholder_example :
  handle_fields (Entity_init Sample.GATEWAY_LOOKUP 1 (Sample.slot 0 None) ∅)
  = handle_fields
      (Entity_init Sample.GATEWAY_LOOKUP 1
         (with_handle (Sample.slot 0 None) (Some "0-S2-0-0")) ∅)
  ∧ handle_fields (Entity_init Sample.GATEWAY_LOOKUP 1 (Sample.slot 0 None) ∅)
    = Ok (Some (VStr ""), Some (VInt 0), Some (VInt 0)).
Proof.
  destruct (Entity_empty_handle_is_placeholder Sample.GATEWAY_LOOKUP 1
              (Sample.slot 0 None) ∅) as [Hsame Hparsed].
  - left. reflexivity.
  - split; [exact Hsame|]. apply Hparsed. reflexivity.
Defined.

(** * Attribute decoding *)

Section Strip.
Implicit Types s : string.

Lemma app_String c s1 s2 : String c s1 +:+ s2 = String c (s1 +:+ s2).
Proof. reflexivity. Qed.
Lemma app_empty s : "" +:+ s = s.
Proof. reflexivity. Qed.





End Strip.




Example Attribute_decode_Human :
  decoded (Attribute_init Sample.LOBBY_PROPERTIES (VInt 0) (VInt 500) (VInt 1) "nmuH")
  = Ok (Some (VStr "Controller"), Some (VStr "Human")).
Proof. vm_compute. reflexivity. Qed.

(** C4 (the code at an unknown id). An id that is not in the master table
    never yields a value. Building the message concatenates the id to a
    string: for a string id this raises the ValueError that names the id, for
    any other id, an integer included, the concatenation itself raises a
    TypeError, which does not mention the id. *)
Theorem Attribute_unknown_id
    (LOBBY_PROPERTIES : gmap Z (string * gmap string Val))
    header attr_id player value :
  lobby_get LOBBY_PROPERTIES attr_id = None →
  Attribute_init LOBBY_PROPERTIES header attr_id player value
  = Raise match attr_id with
          | VStr s => ValueError ("Unknown attribute id: " +:+ s)
          | _ => TypeError
          end.
Proof.
  intros HL. unfold Attribute_init. rewrite HL.
  by destruct attr_id.
Qed.

Lemma Attribute_unknown_id_example :
  Attribute_init Sample.LOBBY_PROPERTIES (VInt 0) (VInt 9999) (VInt 1) "nmuH"
  = Raise TypeError.
Proof.
  apply (Attribute_unknown_id Sample.LOBBY_PROPERTIES (VInt 0) (VInt 9999) (VInt 1) "nmuH").
  vm_compute. reflexivity.
Defined.

(** * Team aggregates *)

Section Generators.
Context {A B : Type} (f : A → result B).

Lemma mapR_Permutation l l' ys :
  l ≡ₚ l' → mapR f l = Ok ys → ∃ ys', mapR f l' = Ok ys' ∧ ys ≡ₚ ys'.
Proof.
  intros Hperm. revert ys.
  induction Hperm as [|x l l' _ IH|x y l|l l' l'' _ IH1 _ IH2]; intros ys; simpl.
  - intros [= <-]. by exists [].
  - destruct (f x) as [b|]; simpl; [|done].
    destruct (mapR f l) as [bs|]; simpl; [|done]. intros [= <-].
    destruct (IH bs eq_refl) as (bs' & -> & Hbs). simpl.
    exists (b :: bs'). by rewrite Hbs.
  - destruct (f y) as [b|]; simpl; [|done].
    destruct (f x) as [a|]; simpl; [|done].
    destruct (mapR f l) as [bs|]; simpl; [|done]. intros [= <-].
    exists (a :: b :: bs). split; [done|]. apply perm_swap.
  - intros (ys' & H' & Hys')%IH1. apply IH2 in H' as (ys'' & H'' & Hys'').
    exists ys''. split; [done|]. by etrans.
Qed.

Lemma mapR_same_outcome l l' :
  l ≡ₚ l' →
  match mapR f l, mapR f l' with
  | Ok ys, Ok ys' => ys ≡ₚ ys'
  | Raise _, Raise _ => True
  | _, _ => False
  end.
Proof.
  intros Hperm.
  destruct (mapR f l) as [ys|e] eqn:H.
  - by destruct (mapR_Permutation _ _ _ Hperm H) as (ys' & -> & ?).
  - destruct (mapR f l') as [ys'|e'] eqn:H'; [|done].
    symmetry in Hperm.
    destruct (mapR_Permutation _ _ _ Hperm H') as (ys & Hys & ?). congruence.
Qed.

Lemma mapR_then {C} (g : B → result C) l ys :
  mapR f l = Ok ys → mapR (λ x, y ← f x; g y) l = mapR g ys.
Proof.
  revert ys. induction l as [|x l IH]; intros ys; simpl.
  - by intros [= <-].
  - destruct (f x) as [b|]; simpl; [|done].
    destruct (mapR f l) as [bs|]; simpl; [|done]. intros [= <-].
    simpl. by rewrite (IH bs).
Qed.
End Generators.

Lemma sorted_spec l : Sorted String.le (PyStr.sorted l) ∧ PyStr.sorted l ≡ₚ l.
Proof.
  split.
  - apply (Sorted_merge_sort String.le).
  - apply (merge_sort_Permutation String.le).
Qed.

Lemma sorted_Permutation l l' : l ≡ₚ l' → PyStr.sorted l = PyStr.sorted l'.
Proof.
  intros Hperm. apply (Sorted_unique String.le); try apply sorted_spec.
  destruct (sorted_spec l) as [_ ->]. destruct (sorted_spec l') as [_ ->]. done.
Qed.

Lemma Team_add_players t ps :
  Team.players (foldl Team_add t ps) = (Team.players t ++ ps)%list.
Proof.
  revert t. induction ps as [|p ps IH]; intros t; simpl.
  - by rewrite app_nil_r.
  - rewrite IH. simpl. by rewrite <-app_assoc.
Qed.

Lemma Team_of_players number ps :
  Team.players (foldl Team_add (Team_init number) ps) = ps.
Proof. by rewrite Team_add_players. Qed.

Lemma mapR_Raise {A B} (f : A → result B) (l : list A) (x : A) (e : PyExc) :
  x ∈ l → f x = Raise e → ∃ e', mapR f l = Raise e'.
Proof.
  intros Hx Hf. induction l as [|y l IH]; [by apply elem_of_nil in Hx|].
  simpl. destruct (f y) as [b|e1] eqn:Hy; simpl; [|eauto].
  apply elem_of_cons in Hx as [->|Hx]; [congruence|].
  destruct (IH Hx) as [e' ->]. simpl. eauto.
Qed.


Lemma join_concatenated (l : list string) : PyStr.join "" l = concatenated l.
Proof.
  unfold PyStr.join. induction l as [|u [|u' l] IH]; [done| |].
  - simpl. induction u as [|c u IHu]; [done|]. by rewrite app_String, <-IHu.
  - change (String.concat "" (u :: u' :: l))
      with (u +:+ String.concat "" (u' :: l)).
    by rewrite IH.
Qed.

Lemma upper_char_spec (c : ascii) : PyStr.upper_char c = upper_spec c.
Proof. destruct c as [[] [] [] [] [] [] [] []]; vm_compute; reflexivity. Qed.

Lemma race_initial_spec (p : Obj) (race : string) :
  played_race p = Ok race → race ≠ "" → race_initial p = Ok (initial_spec race).
Proof.
  unfold played_race, race_initial.
  destruct (getattr p "play_race") as [[]|]; simpl; try done.
  intros [= ->] Hne. destruct race as [|c race]; [done|].
  simpl. by rewrite upper_char_spec.
Qed.

Lemma mapR_race_initial (ps : list Obj) (races : list string) :
  mapR played_race ps = Ok races → Forall (λ race, race ≠ "") races →
  mapR race_initial ps = Ok (initial_spec <$> races).
Proof.
  revert races. induction ps as [|p ps IH]; intros races; simpl.
  - by intros [= <-].
  - intros H. apply bind_Ok in H as (race & Hp & H).
    apply bind_Ok in H as (rs & Hrs & [= <-]).
    intros [Hne Hall]%Forall_cons.
    by rewrite (race_initial_spec p race), (IH rs).
Qed.




Example Team_hash_sample :
  hash Sample.digest (Sample.team_of (Sample.unwrap <$> [Sample.bob; Sample.alice]))
  = Ok "http://us.battle.net/sc2/en/profile/555/2/Alice/,http://us.battle.net/sc2/en/profile/777/2/Bob/".
Proof. vm_compute. reflexivity. Qed.

Example Team_hash_with_computer :
  hash Sample.digest (Sample.team_of (Sample.unwrap <$> [Sample.alice; Sample.ai]))
  = Raise (AttributeError "url").
Proof. vm_compute. reflexivity. Qed.

(** C5. A team's lineup is the string of its members' played-race
    initials, each made a capital, in alphabetical order whatever the order
    the members were added in; members who played Terran, Zerg and Protoss
    give "PTZ" in every order. *)
Theorem Team_lineup_sorted number (ps ps' : list Obj) :
  ps ≡ₚ ps' →
  let t := foldl Team_add (Team_init number) ps in
  let t' := foldl Team_add (Team_init number) ps' in
  (∀ races, mapR played_race ps = Ok races → Forall (λ race, race ≠ "") races →
     let initials := PyStr.sorted (initial_spec <$> races) in
     lineup t = Ok (concatenated initials)
     ∧ lineup t' = Ok (concatenated initials)
     ∧ Sorted String.le initials
     ∧ initials ≡ₚ initial_spec <$> races)
  ∧ (∀ races, mapR played_race ps = Ok races →
       races ≡ₚ ["Terran"; "Zerg"; "Protoss"] →
       lineup t = Ok "PTZ" ∧ lineup t' = Ok "PTZ")
  ∧ same_outcome (lineup t) (lineup t').
Proof.
  intros Hperm. cbv zeta. unfold lineup. rewrite !Team_of_players.
  pose proof (mapR_same_outcome race_initial _ _ Hperm) as Hout.
  assert (∀ races, mapR played_race ps = Ok races →
            Forall (λ race, race ≠ "") races →
            (mapR race_initial ps ≫= λ initials,
               Ok (PyStr.join "" (PyStr.sorted initials)))
            = Ok (concatenated (PyStr.sorted (initial_spec <$> races)))
            ∧ (mapR race_initial ps' ≫= λ initials,
                 Ok (PyStr.join "" (PyStr.sorted initials)))
              = Ok (concatenated (PyStr.sorted (initial_spec <$> races)))) as Hmain.
  { intros races Hraces Hne.
    rewrite (mapR_race_initial _ _ Hraces Hne) in Hout |- *.
    destruct (mapR race_initial ps') as [ins'|]; [|done]. simpl.
    by rewrite <-(sorted_Permutation _ _ Hout), join_concatenated. }
  split; [|split].
  - intros races Hraces Hne.
    destruct (Hmain races Hraces Hne) as [-> ->].
    destruct (sorted_spec (initial_spec <$> races)) as [Hs Hp]. done.
  - intros races Hraces Hr.
    assert (Forall (λ race, race ≠ "") races) as Hne.
    { rewrite Hr. repeat constructor; discriminate. }
    destruct (Hmain races Hraces Hne) as [-> ->].
    assert (PyStr.sorted (initial_spec <$> races) = ["P"; "T"; "Z"]) as ->; [|done].
    rewrite (sorted_Permutation _ (initial_spec <$> ["Terran"; "Zerg"; "Protoss"]))
      by (by rewrite Hr).
    vm_compute. reflexivity.
  - destruct (mapR race_initial ps) as [ins|], (mapR race_initial ps') as [ins'|];
      simpl; try done.
    by rewrite (sorted_Permutation _ _ Hout).
Qed.

(** Small letters become capitals before the sort: "terran" and "Zerg" give
    "TZ", where sorting the raw initials would put "Z" first. *)
Lemma Team_lineup_sorted_example :
  let t := Sample.unwrap (Demo.raw_player "Tim" "terran") in
  let z := Sample.unwrap (Demo.raw_player "Zoe" "Zerg") in
  let p := Sample.unwrap (Demo.raw_player "Pat" "protoss") in
  (lineup (foldl Team_add (Team_init 1) [z; t; p]) = Ok "PTZ"
   ∧ lineup (foldl Team_add (Team_init 1) [t; z; p]) = Ok "PTZ")
  ∧ (lineup (foldl Team_add (Team_init 1) [Sample.unwrap Sample.alice;
                                           Sample.unwrap Sample.bob;
                                           Sample.unwrap Sample.carol]) = Ok "PTZ"
     ∧ lineup (foldl Team_add (Team_init 1) [Sample.unwrap Sample.bob;
                                             Sample.unwrap Sample.alice;
                                             Sample.unwrap Sample.carol]) = Ok "PTZ").
Proof.
  cbv zeta.
  pose proof (Team_lineup_sorted 1
                [Sample.unwrap (Demo.raw_player "Zoe" "Zerg");
                 Sample.unwrap (Demo.raw_player "Tim" "terran");
                 Sample.unwrap (Demo.raw_player "Pat" "protoss")]
                [Sample.unwrap (Demo.raw_player "Tim" "terran");
                 Sample.unwrap (Demo.raw_player "Zoe" "Zerg");
                 Sample.unwrap (Demo.raw_player "Pat" "protoss")]
                (perm_swap _ _ _)) as [Hlower _].
  pose proof (Team_lineup_sorted 1
                [Sample.unwrap Sample.alice; Sample.unwrap Sample.bob;
                 Sample.unwrap Sample.carol]
                [Sample.unwrap Sample.bob; Sample.unwrap Sample.alice;
                 Sample.unwrap Sample.carol] (perm_swap _ _ _)) as (_ & Hptz & _).
  split.
  - destruct (Hlower ["Zerg"; "terran"; "protoss"]) as (H1 & H2 & _).
    + vm_compute. reflexivity.
    + repeat constructor; discriminate.
    + split; [exact H1|exact H2].
  - apply (Hptz ["Zerg"; "Terran"; "Protoss"]).
    + vm_compute. reflexivity.
    + apply perm_swap.
Defined.

(** * Further properties of the module *)

(** ** Decimal text and splitting *)

Section Text.
Implicit Types (s t : string) (c : ascii).

Lemma app_empty_r s : s +:+ "" = s.
Proof. induction s as [|c s IH]; [done|]. by rewrite app_String, IH. Qed.

Lemma app_assoc_s s1 s2 s3 : (s1 +:+ s2) +:+ s3 = s1 +:+ s2 +:+ s3.
Proof. induction s1 as [|c s1 IH]; [done|]. by rewrite !app_String, IH. Qed.

Lemma rev_app_twice s cur acc :
  String.rev_app (String.rev_app s cur) acc = String.rev_app cur (s +:+ acc).
Proof.
  revert cur acc. induction s as [|c s IH]; intros cur acc; simpl; [done|].
  by rewrite IH.
Qed.

Lemma rev_rev_app s : String.rev (String.rev_app s "") = s.
Proof. unfold String.rev. rewrite rev_app_twice. simpl. apply app_empty_r. Qed.

Lemma lstrip_lacks chars s :
  (∀ c, PyStr.mem c chars = true → lacks c s) → PyStr.lstrip chars s = s.
Proof.
  destruct s as [|c s]; simpl; [done|]. intros H.
  destruct (PyStr.mem c chars) eqn:Hc; [|done].
  by destruct (H c Hc) as [? _].
Qed.

Lemma rstrip_lacks chars s :
  (∀ c, PyStr.mem c chars = true → lacks c s) → PyStr.rstrip chars s = s.
Proof.
  induction s as [|c s IH]; simpl; [done|]. intros H.
  rewrite IH by (intros c' Hc'; by destruct (H c' Hc')).
  destruct s; [|done].
  destruct (PyStr.mem c chars) eqn:Hc; [|done].
  by destruct (H c Hc) as [? _].
Qed.

Lemma digit_not_space c :
  is_Some (Ascii.is_nat c) → PyStr.mem c PyStr.whitespace = false.
Proof.
  destruct c as [[] [] [] [] [] [] [] []]; intros [d Hd]; try done;
    vm_compute; reflexivity.
Qed.

Lemma digit_string_lacks s c :
  Ascii.is_nat c = None → digit_string s → lacks c s.
Proof.
  intros Hc. induction s as [|c' s IH]; simpl; [done|].
  intros [[d Hd] Hs]. split; [congruence|auto].
Qed.

Lemma digit_string_app s t : digit_string s → digit_string t → digit_string (s +:+ t).
Proof.
  induction s as [|c s IH]; [done|]. rewrite app_String. simpl.
  intros [Hc Hs] Ht. split; [done|]. by apply IH.
Qed.

Lemma digits_app s t acc :
  PyStr.digits (s +:+ t) acc = PyStr.digits s acc ≫= PyStr.digits t.
Proof.
  revert acc. induction s as [|c s IH]; intros acc; [done|].
  rewrite app_String. simpl. destruct (Ascii.is_nat c); [apply IH|done].
Qed.

Lemma pretty_N_char_digit (d : N) :
  (d < 10)%N → Ascii.is_nat (pretty_N_char d) = Some (N.to_nat d).
Proof.
  intros Hd.
  assert (d ∈ [0; 1; 2; 3; 4; 5; 6; 7; 8; 9]%N) as Hin.
  { rewrite !elem_of_cons. lia. }
  rewrite !elem_of_cons, elem_of_nil in Hin.
  by destruct Hin as [->|[->|[->|[->|[->|[->|[->|[->|[->|[->|[]]]]]]]]]]].
Qed.

Lemma pretty_N_go_app (x : N) s : pretty_N_go x s = pretty_N_go x "" +:+ s.
Proof.
  revert s. induction (N.lt_wf_0 x) as [x _ IH]; intros s.
  destruct (decide (x = 0)%N) as [->|Hx].
  - by rewrite !pretty_N_go_0.
  - assert (x `div` 10 < x)%N as Hlt by (apply N.div_lt; lia).
    rewrite !(pretty_N_go_step x) by lia.
    rewrite (IH _ Hlt (String _ s)), (IH _ Hlt (String _ "")).
    by rewrite app_assoc_s.
Qed.

Lemma pretty_N_go_digits (x : N) :
  digit_string (pretty_N_go x "")
  ∧ PyStr.digits (pretty_N_go x "") 0 = Some (Z.of_N x).
Proof.
  induction (N.lt_wf_0 x) as [x _ IH].
  destruct (decide (x = 0)%N) as [->|Hx].
  - by rewrite pretty_N_go_0.
  - assert (x `div` 10 < x)%N as Hlt by (apply N.div_lt; lia).
    assert (x `mod` 10 < 10)%N as Hmod by (apply N.mod_lt; lia).
    rewrite pretty_N_go_step, pretty_N_go_app by lia.
    destruct (IH _ Hlt) as [Hd Hv].
    pose proof (pretty_N_char_digit _ Hmod) as Hc.
    split.
    + apply digit_string_app; [done|]. simpl. rewrite Hc. eauto.
    + rewrite digits_app, Hv. simpl. rewrite Hc.
      f_equal. rewrite (N.div_mod x 10) at 3 by lia. lia.
Qed.

(** The decimal text of a natural number: digits only, not empty, and read
    back by [digits] as the number. *)
Lemma pretty_nonneg (z : Z) :
  (0 ≤ z)%Z →
  digit_string (pretty z) ∧ pretty z ≠ "" ∧ PyStr.digits (pretty z) 0 = Some z.
Proof.
  intros Hz. destruct z as [|q|q]; [|..|lia].
  { change (pretty 0) with "0". split; [simpl; eauto|done]. }
  change (pretty (Z.pos q)) with (pretty_N (N.pos q)). unfold pretty_N.
  destruct (decide (N.pos q = 0)%N) as [|_]; [done|].
  destruct (pretty_N_go_digits (N.pos q)) as [Hd Hv].
  split; [done|]. split; [|done].
  intros Hempty. rewrite Hempty in Hv. done.
Qed.

(** [int] reads a digit string as [digits] does. *)
Lemma int_digit_string s z :
  digit_string s → s ≠ "" → PyStr.digits s 0 = Some z → PyStr.int s = Ok z.
Proof.
  intros Hd Hne Hv. unfold PyStr.int, PyStr.strip.
  assert (∀ c, PyStr.mem c PyStr.whitespace = true → lacks c s) as Hsp.
  { intros c Hc. apply digit_string_lacks; [|done].
    destruct (Ascii.is_nat c) eqn:Hn; [|done].
    rewrite digit_not_space in Hc by eauto. done. }
  rewrite (lstrip_lacks _ _ Hsp), (rstrip_lacks _ _ Hsp).
  destruct s as [|c s]; [done|].
  assert (c ≠ "+"%char ∧ c ≠ "-"%char) as [Hp Hm].
  { destruct Hd as [[d Hc] _]. split; intros ->; done. }
  assert (match String c s with
          | String "+" r => (false, r)
          | String "-" r => (true, r)
          | _ => (false, String c s)
          end = (false, String c s)) as ->.
  { destruct c as [[] [] [] [] [] [] [] []]; done. }
  by rewrite Hv.
Qed.

Lemma int_pretty (z : Z) : (0 ≤ z)%Z → PyStr.int (pretty z) = Ok z.
Proof.
  intros (? & ? & ?)%pretty_nonneg. by apply int_digit_string.
Qed.

Lemma split_go_lacks sep cur s t :
  lacks sep s →
  PyStr.split_go sep cur (s +:+ t) = PyStr.split_go sep (String.rev_app s cur) t.
Proof.
  revert cur. induction s as [|c s IH]; intros cur; [done|].
  intros [Hc Hs]. rewrite app_String. simpl.
  destruct (decide (c = sep)); [done|]. by apply IH.
Qed.

Lemma split_cons sep s t :
  lacks sep s →
  PyStr.split sep (s +:+ String sep t) = s :: PyStr.split sep t.
Proof.
  intros Hs. unfold PyStr.split. rewrite split_go_lacks by done. simpl.
  destruct (decide (sep = sep)); [|done]. by rewrite rev_rev_app.
Qed.

Lemma split_last sep s : lacks sep s → PyStr.split sep s = [s].
Proof.
  intros Hs. unfold PyStr.split.
  rewrite <-(app_empty_r s) at 1. rewrite split_go_lacks by done. simpl.
  by rewrite rev_rev_app.
Qed.

Lemma split_handle_of g tag sub id :
  (0 ≤ g)%Z → (0 ≤ sub)%Z → (0 ≤ id)%Z → lacks "-" tag →
  PyStr.split "-" (handle_of g tag sub id) = [pretty g; tag; pretty sub; pretty id].
Proof.
  intros Hg Hsub Hid Htag. unfold handle_of.
  assert (∀ z, (0 ≤ z)%Z → lacks "-" (pretty z)) as Hl.
  { intros z (Hd & _)%pretty_nonneg. by apply digit_string_lacks. }
  rewrite !app_String, !app_empty.
  rewrite !split_cons, split_last by auto. done.
Qed.
End Text.

(** ** What the constructors write *)

Section Constructors.
Context (GATEWAY_LOOKUP : gmap Z string).
Context (LOCALIZED_RACES : gmap string string).

Local Abbreviation Entity_init := (Entity_init GATEWAY_LOOKUP).
Local Abbreviation Player_init := (Player_init GATEWAY_LOOKUP LOCALIZED_RACES).
Local Abbreviation composed := (composed GATEWAY_LOOKUP LOCALIZED_RACES).

Lemma Entity_init_inv sid slot_data self self' :
  Entity_init sid slot_data self = Ok self' →
  let parts := PyStr.split "-" (str_or (SlotData.toon_handle slot_data) "0-S2-0-0") in
  ∃ p0 p2 p3 g region subregion toon_id,
    parts !! 0%nat = Some p0 ∧ PyStr.int p0 = Ok g
    ∧ GATEWAY_LOOKUP !! g = Some region
    ∧ parts !! 2%nat = Some p2 ∧ PyStr.int p2 = Ok subregion
    ∧ parts !! 3%nat = Some p3 ∧ PyStr.int p3 = Ok toon_id
    ∧ handle_fields (Ok self')
      = Ok (Some (VStr region), Some (VInt subregion), Some (VInt toon_id))
    ∧ self' !! "gateway" = Some (VStr region)
    ∧ role_flags self'
      = (Some (VBool (bool_decide (SlotData.control slot_data = 2))),
         Some (VBool (bool_decide (SlotData.observe slot_data ≠ 0))),
         Some (VBool (bool_decide (SlotData.observe slot_data = 2))))
    ∧ ∀ k, k ∈ Entity_untouched → self' !! k = self !! k.
Proof.
  unfold Entity_init. cbv zeta. intros H.
  apply bind_Ok in H as (region & Hr & H).
  apply bind_Ok in Hr as (p0 & Hp0 & Hr).
  apply bind_Ok in Hr as (g & Hg & Hr).
  apply bind_Ok in H as (subregion & Hs & H).
  apply bind_Ok in Hs as (p2 & Hp2 & Hs).
  apply bind_Ok in H as (toon_id & Ht & H).
  apply bind_Ok in Ht as (p3 & Hp3 & Ht).
  injection H as <-.
  unfold index, from_lookup in *.
  exists p0, p2, p3, g, region, subregion, toon_id.
  repeat case_match; simplify_eq.
  do 7 (split; [done|]).
  split; [unfold handle_fields; simpl; by map_lookup|].
  split; [by map_lookup|].
  split; [unfold role_flags; by map_lookup|].
  intros k Hk. unfold Entity_untouched in Hk.
  rewrite !elem_of_cons, elem_of_nil in Hk.
  destruct Hk as [->|[->|[->|[->|[->|[->|[->|[->|[]]]]]]]]]; by map_lookup.
Qed.

Lemma Entity_init_intro sid slot_data self p0 p2 p3 g region subregion toon_id :
  let parts := PyStr.split "-" (str_or (SlotData.toon_handle slot_data) "0-S2-0-0") in
  parts !! 0%nat = Some p0 → PyStr.int p0 = Ok g →
  GATEWAY_LOOKUP !! g = Some region →
  parts !! 2%nat = Some p2 → PyStr.int p2 = Ok subregion →
  parts !! 3%nat = Some p3 → PyStr.int p3 = Ok toon_id →
  ∃ self', Entity_init sid slot_data self = Ok self'.
Proof.
  cbv zeta. intros Hp0 Hg Hr Hp2 Hs Hp3 Ht. unfold Entity_init, index.
  rewrite Hp0, Hp2, Hp3. simpl. rewrite Hg. simpl. rewrite Hr. simpl.
  rewrite Hs. simpl. rewrite Ht. simpl. eauto.
Qed.

Lemma str_or_Some s y : s ≠ "" → str_or (Some s) y = s.
Proof. by destruct s. Qed.

Lemma handle_of_nonempty g tag sub id : handle_of g tag sub id ≠ "".
Proof.
  unfold handle_of. destruct (pretty g) as [|c s]; [|by rewrite app_String].
  rewrite app_empty. done.
Qed.

Lemma User_init_inv uid init_data self self' :
  User_init uid init_data self = Ok self' →
  self' !! "uid" = Some (VInt uid)
  ∧ self' !! "name" = Some (VStr (InitData.name init_data))
  ∧ ∀ k, k ∈ ["region"; "gateway"; "subregion"; "toon_id"; "team_id"; "pid";
              "is_human"; "is_observer"; "is_referee";
              "play_race"; "pick_race"; "difficulty"; "result"; "team"] →
         self' !! k = self !! k.
Proof.
  intros [= <-]. do 2 (split; [by map_lookup|]).
  intros k Hk. rewrite !elem_of_cons, elem_of_nil in Hk.
  repeat (destruct Hk as [->|Hk]; [by map_lookup|]). done.
Qed.

Lemma Player_init_inv pid detail_data attribute_data self self' :
  Player_init pid detail_data attribute_data self = Ok self' →
  self' !! "pid" = Some (VInt pid)
  ∧ self' !! "play_race"
    = Some (VStr (default (DetailData.race detail_data)
                    (LOCALIZED_RACES !! DetailData.race detail_data)))
  ∧ self' !! "pick_race" = Some (VStr (default "Unknown" (attribute_data !! "Race")))
  ∧ self' !! "difficulty"
    = Some (VStr (default "Unknown" (attribute_data !! "Difficulty")))
  ∧ self' !! "team" = Some VNone
  ∧ ∀ k, k ∈ ["name"; "uid"; "team_id"; "is_human"; "is_observer"; "is_referee"] →
         self' !! k = self !! k.
Proof.
  unfold Player_init.
  destruct (GATEWAY_LOOKUP !! _) as [region|]; simpl; [|done].
  intros [= <-].
  do 5 (split; [repeat case_decide; by map_lookup|]).
  intros k Hk. rewrite !elem_of_cons, elem_of_nil in Hk.
  repeat (destruct Hk as [->|Hk]; [repeat case_decide; by map_lookup|]). done.
Qed.

Lemma Player_init_Ok pid detail_data attribute_data self :
  (∃ self', Player_init pid detail_data attribute_data self = Ok self')
  ↔ is_Some (GATEWAY_LOOKUP !! BnetData.gateway (DetailData.bnet detail_data)).
Proof.
  unfold Player_init.
  destruct (GATEWAY_LOOKUP !! _) as [region|]; simpl.
  - split; eauto.
  - split; [by intros [? ?]|by intros [? ?]].
Qed.

(** The steps by which a competitor's object comes about. *)
Lemma composed_steps p sid slot_data uid init_data pid detail_data attribute_data :
  composed p sid slot_data uid init_data pid detail_data attribute_data →
  ∃ self0 self self',
    Entity_init sid slot_data ∅ = Ok self0
    ∧ Player_init pid detail_data attribute_data self = Ok self'
    ∧ ((User_init uid init_data self0 = Ok self
        ∧ cls p = Participant ∧ __dict__ p = self')
       ∨ (self = self0 ∧ cls p = Computer
          ∧ __dict__ p = <["name" := VStr (DetailData.name detail_data)]> self')).
Proof.
  intros [H|H].
  - apply bind_Ok in H as (self0 & HE & H).
    apply bind_Ok in H as (self & HU & H).
    apply bind_Ok in H as (self' & HP & [= <-]).
    exists self0, self, self'. eauto 10.
  - apply bind_Ok in H as (self0 & HE & H).
    apply bind_Ok in H as (self' & HP & [= <-]).
    exists self0, self0, self'. eauto 10.
Qed.
End Constructors.

Lemma role_flags_frame (m m' : gmap string Val) :
  (∀ k, k ∈ ["is_human"; "is_observer"; "is_referee"] → m' !! k = m !! k) →
  role_flags m' = role_flags m.
Proof.
  intros H. unfold role_flags.
  rewrite !H by (rewrite !elem_of_cons; auto). done.
Qed.

Section Handles.
Context (GATEWAY_LOOKUP : gmap Z string).
Context (LOCALIZED_RACES : gmap string string).

Local Abbreviation Entity_init := (Entity_init GATEWAY_LOOKUP).
Local Abbreviation Observer_init := (Observer_init GATEWAY_LOOKUP).
Local Abbreviation constructed := (constructed GATEWAY_LOOKUP LOCALIZED_RACES).

Lemma Entity_init_handle_of sid slot_data self g tag sub id region :
  (0 ≤ g)%Z → (0 ≤ sub)%Z → (0 ≤ id)%Z → lacks "-" tag →
  GATEWAY_LOOKUP !! g = Some region →
  ∃ self',
    Entity_init sid (with_handle slot_data (Some (handle_of g tag sub id))) self
    = Ok self'
    ∧ self' !! "region" = Some (VStr region)
    ∧ self' !! "subregion" = Some (VInt sub)
    ∧ self' !! "toon_id" = Some (VInt id)
    ∧ ∀ k, k ∈ Entity_untouched → self' !! k = self !! k.
Proof.
  intros Hg Hsub Hid Htag HG.
  pose proof (split_handle_of g tag sub id Hg Hsub Hid Htag) as Hsplit.
  set (slot := with_handle slot_data (Some (handle_of g tag sub id))).
  assert (str_or (SlotData.toon_handle slot) "0-S2-0-0" = handle_of g tag sub id)
    as Hor by apply str_or_Some, handle_of_nonempty.
  destruct (Entity_init_intro GATEWAY_LOOKUP sid slot self
              (pretty g) (pretty sub) (pretty id) g region sub id)
    as [self' HE]; rewrite ?Hor, ?Hsplit; auto using int_pretty.
  exists self'. split; [done|].
  apply Entity_init_inv in HE
    as (p0 & p2 & p3 & g' & r' & s' & t' & H0 & Hg' & Hr' & H2 & Hs' & H3 & Ht'
        & Hf & _ & _ & Hframe).
  rewrite Hor, Hsplit in H0, H2, H3. simpl in H0, H2, H3. simplify_eq.
  rewrite int_pretty in Hg', Hs', Ht' by done. simplify_eq.
  unfold handle_fields in Hf. simpl in Hf. by simplify_eq.
Qed.

(** X1. A handle written as [<gateway>-<tag>-<subregion>-<id>] is read back:
    the region is the gateway table's entry, the subregion and account id
    are the numbers written. The tag between them is never looked at. *)
Theorem Entity_handle_round_trip sid slot_data self g tag sub id region :
  (0 ≤ g)%Z → (0 ≤ sub)%Z → (0 ≤ id)%Z → lacks "-" tag →
  GATEWAY_LOOKUP !! g = Some region →
  handle_fields
    (Entity_init sid (with_handle slot_data (Some (handle_of g tag sub id))) self)
  = Ok (Some (VStr region), Some (VInt sub), Some (VInt id)).
Proof.
  intros Hg Hsub Hid Htag HG.
  destruct (Entity_init_handle_of sid slot_data self g tag sub id region)
    as (self' & -> & Hr & Hs & Ht & _); try done.
  unfold handle_fields. simpl. by rewrite Hr, Hs, Ht.
Qed.

(** X2. A well-formed handle whose gateway id the table does not know makes
    the constructor raise KeyError: no object, no default region. *)
Theorem Entity_unknown_gateway sid slot_data self g tag sub id :
  (0 ≤ g)%Z → (0 ≤ sub)%Z → (0 ≤ id)%Z → lacks "-" tag →
  GATEWAY_LOOKUP !! g = None →
  Entity_init sid (with_handle slot_data (Some (handle_of g tag sub id))) self
  = Raise KeyError.
Proof.
  intros Hg Hsub Hid Htag HG.
  set (slot := with_handle slot_data (Some (handle_of g tag sub id))).
  assert (str_or (SlotData.toon_handle slot) "0-S2-0-0" = handle_of g tag sub id)
    as Hor by apply str_or_Some, handle_of_nonempty.
  unfold Entity_init. rewrite Hor, split_handle_of by done.
  unfold index. cbn [lookup list_lookup from_lookup mbind result_bind].
  rewrite (int_pretty g) by done. cbn [mbind result_bind]. by rewrite HG.
Qed.

(** X3. A non-empty handle with fewer than four hyphen-separated parts never
    yields an object: the constructor raises. Only the absent or empty
    handle is replaced by the placeholder. *)
Theorem Entity_short_handle_fails sid slot_data self handle :
  handle ≠ "" →
  (length (PyStr.split "-" handle) < 4)%nat →
  ∃ e, Entity_init sid (with_handle slot_data (Some handle)) self = Raise e.
Proof.
  intros Hne Hlen.
  destruct (Entity_init _ _ _) as [self'|e] eqn:HE; [|eauto].
  apply Entity_init_inv in HE as (p0 & p2 & p3 & ? & ? & ? & ? & _ & _ & _ & _ & _
                                    & H3 & _).
  change (SlotData.toon_handle (with_handle slot_data (Some handle)))
    with (Some handle) in H3.
  rewrite str_or_Some in H3 by done.
  apply lookup_lt_Some in H3. lia.
Qed.

(** X4. Every object the three constructors build carries the role flags of
    its slot: human exactly for control 2, observer exactly for a non-zero
    observe value, referee exactly for observe 2. A referee is therefore
    always an observer. *)
Theorem constructed_role_flags p slot_data :
  constructed p slot_data →
  role_flags (__dict__ p)
  = (Some (VBool (bool_decide (SlotData.control slot_data = 2))),
     Some (VBool (bool_decide (SlotData.observe slot_data ≠ 0))),
     Some (VBool (bool_decide (SlotData.observe slot_data = 2))))
  ∧ (getattr p "is_referee" = Ok (VBool true) →
     getattr p "is_observer" = Ok (VBool true)).
Proof.
  intros Hc.
  assert (∃ self0 sid, Entity_init sid slot_data ∅ = Ok self0
                       ∧ role_flags (__dict__ p) = role_flags self0)
    as (self0 & sid & HE & Hp).
  { destruct Hc as [(sid & uid & init_data & pid & H)
                   |(sid & uid & init_data & pid & detail_data & attribute_data & H)].
    - apply bind_Ok in H as (self0 & HE & H).
      apply bind_Ok in H as (self & HU & [= <-]).
      apply User_init_inv in HU as (_ & _ & HU).
      exists self0, sid. split; [done|]. simpl.
      trans (role_flags self); apply role_flags_frame; intros k Hk.
      + flag_cases Hk; by map_lookup.
      + apply HU. flag_cases Hk; in_list.
    - apply composed_steps in H as (self0 & self & self' & HE & HP & Hp).
      apply Player_init_inv in HP as (_ & _ & _ & _ & _ & HP).
      assert (role_flags self' = role_flags self) as Hself'.
      { apply role_flags_frame. intros k Hk. apply HP. flag_cases Hk; in_list. }
      exists self0, sid. split; [done|].
      destruct Hp as [(HU & _ & ->)|(-> & _ & ->)].
      + apply User_init_inv in HU as (_ & _ & HU). rewrite Hself'.
        apply role_flags_frame. intros k Hk. apply HU. flag_cases Hk; in_list.
      + rewrite <-Hself'. apply role_flags_frame. intros k Hk.
        flag_cases Hk; by map_lookup. }
  apply Entity_init_inv in HE as (?&?&?&?&?&?&?&_&_&_&_&_&_&_&_&_& Hflags &_).
  rewrite Hflags in Hp. split; [done|].
  unfold role_flags in Hp. injection Hp as _ Ho Hr.
  unfold getattr. rewrite Ho, Hr. simpl. intros [= Href]. do 2 f_equal.
  apply bool_decide_eq_true in Href. apply bool_decide_eq_true. lia.
Qed.
End Handles.

Section Observers.
Context (GATEWAY_LOOKUP : gmap Z string).
Context (LOCALIZED_RACES : gmap string string).

Local Abbreviation Entity_init := (Entity_init GATEWAY_LOOKUP).
Local Abbreviation Observer_init := (Observer_init GATEWAY_LOOKUP).
Local Abbreviation Computer_init := (Computer_init GATEWAY_LOOKUP LOCALIZED_RACES).
Local Abbreviation Participant_init :=
  (Participant_init GATEWAY_LOOKUP LOCALIZED_RACES).

(** X5. An observer keeps the identity read from its slot's handle, there
    being no detail record to replace it: its profile URL carries the
    handle's region, account id and subregion and the account's name, and
    the player id is stored as passed (it may be [None]). *)
Theorem Observer_identity_from_handle
    sid slot_data uid init_data pid g tag sub id region :
  (0 ≤ g)%Z → (0 ≤ sub)%Z → (0 ≤ id)%Z → lacks "-" tag →
  GATEWAY_LOOKUP !! g = Some region →
  ∃ p,
    Observer_init sid (with_handle slot_data (Some (handle_of g tag sub id)))
      uid init_data pid = Ok p
    ∧ cls p = Observer
    ∧ url p = Ok (profile_url region id sub (InitData.name init_data))
    ∧ getattr p "pid" = Ok pid.
Proof.
  intros Hg Hsub Hid Htag HG.
  destruct (Entity_init_handle_of GATEWAY_LOOKUP sid slot_data ∅ g tag sub id region)
    as (self0 & HE & Hr & Hs & Ht & _); try done.
  unfold Observer_init. rewrite HE. simpl.
  eexists. split; [done|]. split; [done|]. split.
  - unfold url. simpl. apply format_URL_TEMPLATE; by map_lookup.
  - unfold getattr. simpl. by map_lookup.
Qed.

(** X6. An observer has none of the attributes of a player: reading its
    played race or its result raises AttributeError, and so the lineup of a
    team that an observer was put on raises instead of skipping it. *)
Theorem Observer_lacks_player_attributes sid slot_data uid init_data pid p :
  Observer_init sid slot_data uid init_data pid = Ok p →
  getattr p "play_race" = Raise (AttributeError "play_race")
  ∧ getattr p "result" = Raise (AttributeError "result")
  ∧ ∀ t, p ∈ Team.players t → ∃ e, lineup t = Raise e.
Proof.
  intros H.
  apply bind_Ok in H as (self0 & HE & H).
  apply bind_Ok in H as (self & HU & [= <-]).
  apply Entity_init_inv in HE as (?&?&?&?&?&?&?&_&_&_&_&_&_&_&_&_&_& HE).
  apply User_init_inv in HU as (_ & _ & HU).
  assert (∀ k, k ∈ ["play_race"; "result"] →
               getattr {| cls := Observer; __dict__ := <["pid":=pid]> self |} k
               = Raise (AttributeError k)) as Hk.
  { intros k Hk. unfold getattr. simpl.
    assert (k ≠ "pid") as Hpid.
    { rewrite !elem_of_cons, elem_of_nil in Hk. by destruct Hk as [->|[->|[]]]. }
    rewrite lookup_insert_ne by done.
    rewrite HU, HE, lookup_empty; [done|..];
      rewrite !elem_of_cons, elem_of_nil in Hk; destruct Hk as [->|[->|[]]];
      unfold Entity_untouched; in_list. }
  split; [apply Hk; in_list|]. split; [apply Hk; in_list|].
  intros t Ht. unfold lineup.
  destruct (mapR_Raise race_initial _ _ (AttributeError "play_race") Ht) as [e He].
  { unfold race_initial. rewrite Hk by in_list. done. }
  exists e. by rewrite He.
Qed.
End Observers.

Section Competitors.
Context (GATEWAY_LOOKUP : gmap Z string).
Context (LOCALIZED_RACES : gmap string string).

Local Abbreviation composed := (composed GATEWAY_LOOKUP LOCALIZED_RACES).
Local Abbreviation competitor := (competitor GATEWAY_LOOKUP LOCALIZED_RACES).

(** The attributes of a competitor that [Player.__init__] and the account
    record decide. *)
Lemma composed_attributes
    p sid slot_data uid init_data pid detail_data attribute_data :
  composed p sid slot_data uid init_data pid detail_data attribute_data →
  getattr p "pid" = Ok (VInt pid)
  ∧ getattr p "play_race"
    = Ok (VStr (default (DetailData.race detail_data)
                  (LOCALIZED_RACES !! DetailData.race detail_data)))
  ∧ getattr p "pick_race" = Ok (VStr (default "Unknown" (attribute_data !! "Race")))
  ∧ getattr p "difficulty"
    = Ok (VStr (default "Unknown" (attribute_data !! "Difficulty")))
  ∧ getattr p "team" = Ok VNone
  ∧ ((cls p = Participant
      ∧ getattr p "name" = Ok (VStr (InitData.name init_data))
      ∧ getattr p "uid" = Ok (VInt uid))
     ∨ (cls p = Computer
        ∧ getattr p "name" = Ok (VStr (DetailData.name detail_data))
        ∧ getattr p "uid" = Raise (AttributeError "uid"))).
Proof.
  intros (self0 & self & self' & HE & HP & Hp)%composed_steps.
  apply Player_init_inv in HP as (Hpid & Hplay & Hpick & Hdiff & Hteam & HP).
  apply Entity_init_inv in HE as (?&?&?&?&?&?&?&_&_&_&_&_&_&_&_&_&_& HE).
  unfold getattr.
  destruct Hp as [(HU & Hcls & ->)|(-> & Hcls & ->)].
  - apply User_init_inv in HU as (Huid & Hname & _).
    rewrite Hpid, Hplay, Hpick, Hdiff, Hteam.
    do 5 (split; [done|]). left.
    rewrite !HP by in_list. by rewrite Hname, Huid.
  - rewrite !lookup_insert_ne by done.
    rewrite Hpid, Hplay, Hpick, Hdiff, Hteam.
    do 5 (split; [done|]). right.
    rewrite lookup_insert_eq, (lookup_insert_ne _ "name" "uid") by done.
    rewrite HP by in_list.
    rewrite HE by (unfold Entity_untouched; in_list). done.
Qed.

Lemma competitor_url p :
  competitor p →
  (cls p = Participant ∧ ∃ u, url p = Ok u)
  ∨ (cls p = Computer ∧ url p = Raise (AttributeError "url")).
Proof.
  intros (sid & slot_data & uid & init_data & pid & detail_data & attribute_data & Hc).
  pose proof Hc as (_&_&_&_&_& [(Hcls & Hname & _)|(Hcls & _)])%composed_attributes.
  - left. split; [done|].
    apply composed_Player in Hc as (self0 & self & _ & _ & _ & self' & HP & Hp).
    apply Player_init_spec in HP as (region & _ & _ & Hr & _ & Hs & Ht & _).
    unfold url. rewrite Hcls. simpl. eexists.
    apply format_URL_TEMPLATE; rewrite ?Hp by done; try done.
    unfold getattr in Hname.
    destruct (__dict__ p !! "name") as [v|] eqn:Hv; simpl in Hname; by simplify_eq.
  - right. split; [done|]. unfold url. by rewrite Hcls.
Qed.

Lemma mapR_url_competitors ps :
  Forall competitor ps →
  (Forall (λ p, cls p = Participant) ps ∧ ∃ urls, mapR url ps = Ok urls)
  ∨ (Exists (λ p, cls p = Computer) ps
     ∧ mapR url ps = Raise (AttributeError "url")).
Proof.
  induction 1 as [|p ps Hp _ IH]; [left; split; [constructor|by exists []]|].
  simpl.
  destruct (competitor_url p Hp) as [(Hcls & u & ->)|(Hcls & ->)]; simpl.
  - destruct IH as [(Hall & us & ->)|(Hex & ->)]; simpl.
    + left. split; [by constructor|eauto].
    + right. split; [by apply Exists_cons_tl|done].
  - right. split; [by apply Exists_cons_hd|done].
Qed.

(** X8. On a team of competitors the hash exists exactly when every member
    is a full participant. A computer player has no profile URL, and a
    single one on the team makes the hash raise AttributeError. *)
Theorem Team_hash_competitors (sha256_hexdigest : string → string) (t : Team.t) :
  Forall competitor (Team.players t) →
  ((∃ digest, hash sha256_hexdigest t = Ok digest)
   ↔ Forall (λ p, cls p = Participant) (Team.players t))
  ∧ (hash sha256_hexdigest t = Raise (AttributeError "url")
     ↔ Exists (λ p, cls p = Computer) (Team.players t)).
Proof.
  intros Hall. unfold hash.
  destruct (mapR_url_competitors _ Hall) as [(Hp & us & ->)|(Hc & ->)]; simpl.
  - split; split; try done; [eauto|].
    intros Hex. apply Exists_exists in Hex as (p & Hin & Hcls).
    rewrite Forall_forall in Hp. specialize (Hp p Hin). congruence.
  - split; split; try done; [by intros [? ?]|].
    intros Hp. apply Exists_exists in Hc as (p & Hin & Hcls).
    rewrite Forall_forall in Hp. specialize (Hp p Hin). congruence.
Qed.

Lemma concat_empty_cons (s : string) (l : list string) :
  String.concat "" (s :: l) = s +:+ String.concat "" l.
Proof. destruct l; simpl; [by rewrite app_empty_r|done]. Qed.

Lemma length_app_string (s t : string) :
  String.length (s +:+ t) = (String.length s + String.length t)%nat.
Proof. induction s as [|c s IH]; [done|]. rewrite app_String. simpl. by rewrite IH. Qed.

Lemma length_concat_units (l : list string) :
  Forall (λ s, String.length s = 1%nat) l →
  String.length (PyStr.join "" l) = length l.
Proof.
  unfold PyStr.join.
  induction 1 as [|s l Hs Hl IH]; [done|].
  rewrite concat_empty_cons, length_app_string, Hs, IH. done.
Qed.

Lemma initial_unit (s : string) :
  s ≠ "" → ∃ i, initial (VStr s) = Ok i ∧ String.length i = 1%nat.
Proof. destruct s as [|c s]; [done|]. intros _. simpl. eauto. Qed.

(** X9. On a team of competitors whose played races are all non-empty the
    lineup exists and has exactly one character per member; a competitor
    with an empty played race makes the lineup raise IndexError. *)
Theorem Team_lineup_competitors (t : Team.t) :
  Forall competitor (Team.players t) →
  (Forall (λ p, getattr p "play_race" ≠ Ok (VStr "")) (Team.players t) →
   ∃ s, lineup t = Ok s ∧ String.length s = length (Team.players t))
  ∧ (Exists (λ p, getattr p "play_race" = Ok (VStr "")) (Team.players t) →
     lineup t = Raise IndexError).
Proof.
  intros Hall. unfold lineup.
  assert (∀ p, competitor p → ∃ r, getattr p "play_race" = Ok (VStr r)) as Hrace.
  { intros p (?&?&?&?&?&?&?& Hc). apply composed_attributes in Hc as (_ & -> & _).
    eauto. }
  split.
  - intros Hne.
    assert (∃ initials, mapR race_initial (Team.players t) = Ok initials
              ∧ Forall (λ s, String.length s = 1%nat) initials
              ∧ length initials = length (Team.players t))
      as (initials & -> & Hunits & Hlen).
    { induction Hall as [|p ps Hp _ IH]; [by exists []|].
      apply Forall_cons in Hne as [Hp' Hne].
      destruct (IH Hne) as (initials & Hi & Hunits & Hlen).
      destruct (Hrace p Hp) as [r Hr].
      destruct (initial_unit r) as (i & Hinit & Hone); [congruence|].
      assert (race_initial p = Ok i) as Hpi
        by (unfold race_initial; rewrite Hr; exact Hinit).
      exists (i :: initials). simpl. rewrite Hpi, Hi. simpl.
      split; [done|]. split; [by constructor|]. by rewrite Hlen. }
    simpl. eexists. split; [done|].
    destruct (sorted_spec initials) as [_ Hperm].
    rewrite length_concat_units by (by rewrite Hperm).
    by rewrite Hperm.
  - intros Hex.
    assert (mapR race_initial (Team.players t) = Raise IndexError) as ->; [|done].
    induction Hall as [|p ps Hp _ IH]; [by apply Exists_nil in Hex|].
    destruct (Hrace p Hp) as [r Hr].
    destruct r as [|c r].
    { assert (race_initial p = Raise IndexError) as Hpi
        by (unfold race_initial; by rewrite Hr).
      simpl. by rewrite Hpi. }
    assert (race_initial p = Ok (PyStr.upper (String c ""))) as Hpi
      by (unfold race_initial; by rewrite Hr).
    apply Exists_cons in Hex as [Hp'|Hex]; [congruence|].
    simpl. by rewrite Hpi, (IH Hex).
Qed.
End Competitors.

Section CompetitorText.
Context (GATEWAY_LOOKUP : gmap Z string).
Context (LOCALIZED_RACES : gmap string string).

Local Abbreviation composed := (composed GATEWAY_LOOKUP LOCALIZED_RACES).

(** X10. A competitor's played race is the localized name of the detail
    record's race, and the raw race itself where the table has none; the
    picked race and the difficulty are the attribute values, and the string
    "Unknown" where the attributes have none. *)
Theorem competitor_races
    p sid slot_data uid init_data pid detail_data attribute_data :
  composed p sid slot_data uid init_data pid detail_data attribute_data →
  let race := DetailData.race detail_data in
  (∀ localized, LOCALIZED_RACES !! race = Some localized →
     getattr p "play_race" = Ok (VStr localized))
  ∧ (LOCALIZED_RACES !! race = None → getattr p "play_race" = Ok (VStr race))
  ∧ (∀ picked, attribute_data !! "Race" = Some picked →
       getattr p "pick_race" = Ok (VStr picked))
  ∧ (attribute_data !! "Race" = None → getattr p "pick_race" = Ok (VStr "Unknown"))
  ∧ (∀ level, attribute_data !! "Difficulty" = Some level →
       getattr p "difficulty" = Ok (VStr level))
  ∧ (attribute_data !! "Difficulty" = None →
     getattr p "difficulty" = Ok (VStr "Unknown")).
Proof.
  intros (_ & Hplay & Hpick & Hdiff & _)%composed_attributes. cbv zeta.
  rewrite Hplay, Hpick, Hdiff.
  repeat split; intros; by simplify_option_eq.
Qed.

(** X11. The text of a competitor is "Player <pid> - <name> (<race>)",
    where the name is the account's for a full participant and the detail
    record's for a computer player, and the race is the played race. *)
Theorem competitor_str
    p sid slot_data uid init_data pid detail_data attribute_data :
  composed p sid slot_data uid init_data pid detail_data attribute_data →
  let play_race := default (DetailData.race detail_data)
                     (LOCALIZED_RACES !! DetailData.race detail_data) in
  (cls p = Participant
   ∧ Obj_str p = Ok (player_text pid (InitData.name init_data) play_race))
  ∨ (cls p = Computer
     ∧ Obj_str p = Ok (player_text pid (DetailData.name detail_data) play_race)).
Proof.
  intros (Hpid & Hplay & _ & _ & _ & Hname)%composed_attributes. cbv zeta.
  assert (∀ name, getattr p "name" = Ok (VStr name) →
            Player_str p
            = Ok (player_text pid name
                    (default (DetailData.race detail_data)
                       (LOCALIZED_RACES !! DetailData.race detail_data)))) as Hstr.
  { intros name Hn. unfold Player_str. rewrite Hpid, Hn, Hplay. reflexivity. }
  destruct Hname as [(Hcls & Hn & _)|(Hcls & Hn & _)]; [left|right];
    (split; [done|]); unfold Obj_str; rewrite Hcls; by apply Hstr.
Qed.
End CompetitorText.

(** ** Attribute padding *)

Section Padding.
Implicit Types s pre suf : string.

Lemma lstrip_padding_app pre s :
  all_padding pre → PyStr.lstrip padding (pre +:+ s) = PyStr.lstrip padding s.
Proof.
  induction pre as [|c pre IH]; [done|]. intros [Hc Hpre].
  rewrite app_String. simpl. rewrite Hc. auto.
Qed.

Lemma lstrip_all_padding suf : all_padding suf → PyStr.lstrip padding suf = "".
Proof.
  intros H. rewrite <-(app_empty_r suf). by rewrite lstrip_padding_app.
Qed.

Lemma rstrip_all_padding suf : all_padding suf → PyStr.rstrip padding suf = "".
Proof.
  induction suf as [|c suf IH]; [done|]. intros [Hc Hsuf].
  simpl. by rewrite IH, Hc.
Qed.

Lemma rstrip_app_padding s suf :
  all_padding suf → PyStr.rstrip padding (s +:+ suf) = PyStr.rstrip padding s.
Proof.
  intros Hsuf. induction s as [|c s IH].
  - rewrite app_empty. by apply rstrip_all_padding.
  - rewrite app_String. simpl. by rewrite IH.
Qed.

Lemma lstrip_app s t :
  PyStr.lstrip padding (s +:+ t)
  = match PyStr.lstrip padding s with
    | "" => PyStr.lstrip padding t
    | u => u +:+ t
    end.
Proof.
  induction s as [|c s IH]; [done|]. rewrite app_String. simpl.
  destruct (PyStr.mem c padding); [apply IH|done].
Qed.

Lemma strip_padded pre s suf :
  all_padding pre → all_padding suf →
  PyStr.strip padding (pre +:+ s +:+ suf) = PyStr.strip padding s.
Proof.
  intros Hpre Hsuf. unfold PyStr.strip.
  rewrite lstrip_padding_app, lstrip_app by done.
  destruct (PyStr.lstrip padding s) as [|c u] eqn:Hs.
  - by rewrite lstrip_all_padding.
  - by rewrite rstrip_app_padding.
Qed.
End Padding.

(** X12. Decoding does not depend on how much padding surrounds the value:
    null bytes and spaces added in front of or behind a raw value leave the
    outcome, the decoded attribute or the exception, as it was. *)
Theorem Attribute_padding_irrelevant
    (LOBBY_PROPERTIES : gmap Z (string * gmap string Val))
    header attr_id player value pre suf :
  all_padding pre → all_padding suf →
  Attribute_init LOBBY_PROPERTIES header attr_id player (pre +:+ value +:+ suf)
  = Attribute_init LOBBY_PROPERTIES header attr_id player value.
Proof.
  intros Hpre Hsuf. unfold Attribute_init. fold padding.
  by rewrite strip_padded.
Qed.

(** ** Graphs *)

Lemma fst_zip_take {T V} (x : list T) (y : list V) :
  (zip x y).*1 = take (length y) x ∧ (zip x y).*2 = take (length x) y.
Proof.
  revert y. induction x as [|a x IH]; intros [|b y]; csimpl; try done.
  destruct (IH y) as [-> ->]. done.
Qed.

Lemma take_min_length {A} (l : list A) (m : nat) :
  take (m `min` length l) l = take m l.
Proof.
  destruct (decide (m ≤ length l)%nat).
  - by rewrite Nat.min_l.
  - rewrite Nat.min_r, !take_ge by lia. done.
Qed.

(** X13. Building a graph anew from the points of a graph made of two
    parallel sequences gives the two sequences cut to the shorter length,
    and the graph itself when they were equally long; this needs a point to
    exist, the empty list of points being taken as absent. *)
Theorem Graph_rebuild_from_points {T V}
    (x x' : list T) (y y' : list V) :
  let g := from_parallel x y in
  let n := (length x `min` length y)%nat in
  n ≠ 0%nat →
  from_samples x' y' (as_points g).1 = from_parallel (take n x) (take n y)
  ∧ (length x = length y → from_samples x' y' (as_points g).1 = g).
Proof.
  cbv zeta. intros Hn.
  assert (from_samples x' y' (as_points (from_parallel x y)).1
          = from_parallel (take (length x `min` length y) x)
              (take (length x `min` length y) y)) as Heq.
  { unfold from_samples.
    change ((as_points (from_parallel x y)).1) with (zip x y).
    rewrite Graph_init_pairs.
    - destruct (fst_zip_take x y) as [-> ->]. unfold from_parallel. simpl.
      rewrite (Nat.min_comm (length x) (length y)) at 1.
      by rewrite !take_min_length.
    - intros Hnil. apply (f_equal length) in Hnil.
      rewrite length_zip_with in Hnil. simpl in Hnil. lia. }
  split; [done|]. intros Hlen. rewrite Heq, Hlen, Nat.min_id.
  rewrite <-Hlen at 1. by rewrite !firstn_all.
Qed.

(** X14. The text of a graph counts its times only: it reports at least as
    many values as [as_points] yields points, and more when the values are
    the shorter sequence. *)
Theorem Graph_str_counts_times {T V} (x : list T) (y : list V) :
  let g := from_parallel x y in
  Graph_str g = Ok ("Graph with " +:+ pretty (Z.of_nat (length x)) +:+ " values")
  ∧ (length (as_points g).1 ≤ length x)%nat
  ∧ ((length y < length x)%nat → (length (as_points g).1 < length x)%nat).
Proof.
  cbv zeta. split; [reflexivity|].
  change ((as_points (from_parallel x y)).1) with (zip x y).
  rewrite length_zip_with. lia.
Qed.

Section MoreHandles.
Context (GATEWAY_LOOKUP : gmap Z string).
Context (LOCALIZED_RACES : gmap string string).

Local Abbreviation Entity_init := (Entity_init GATEWAY_LOOKUP).
Local Abbreviation constructed := (constructed GATEWAY_LOOKUP LOCALIZED_RACES).


(** X16. Every object the three constructors build, an observer too, has
    the team number of its slot plus one. *)
Theorem constructed_team_id p slot_data :
  constructed p slot_data →
  getattr p "team_id" = Ok (VInt (SlotData.team_id slot_data + 1)).
Proof.
  unfold getattr.
  intros [(sid & uid & init_data & pid & H)
         |(sid & uid & init_data & pid & detail_data & attribute_data & H)].
  - apply bind_Ok in H as (self0 & HE & H).
    apply bind_Ok in H as (self & HU & [= <-]).
    apply Entity_init_team_id in HE.
    apply User_init_inv in HU as (_ & _ & HU). simpl.
    rewrite lookup_insert_ne by done. rewrite HU by in_list. by rewrite HE.
  - apply composed_steps in H as (self0 & self & self' & HE & HP & Hp).
    apply Entity_init_team_id in HE.
    apply Player_init_inv in HP as (_ & _ & _ & _ & _ & HP).
    destruct Hp as [(HU & _ & ->)|(-> & _ & ->)].
    + apply User_init_inv in HU as (_ & _ & HU).
      rewrite HP, HU by in_list. by rewrite HE.
    + rewrite lookup_insert_ne by done. rewrite HP by in_list. by rewrite HE.
Qed.
End MoreHandles.

(** An attribute is decoded exactly when its id is in the master table and
    the stripped, reversed value is a key of that id's table; the object
    then holds the header, id and player as passed, the table's name and the
    looked-up value. *)
Lemma Attribute_decoded_iff
    (LOBBY_PROPERTIES : gmap Z (string * gmap string Val))
    header attr_id player value self :
  Attribute_init LOBBY_PROPERTIES header attr_id player value = Ok self
  ↔ ∃ name lookup v,
      lobby_get LOBBY_PROPERTIES attr_id = Some (name, lookup)
      ∧ lookup !! PyStr.reversed (PyStr.strip padding value) = Some v
      ∧ self = <["value" := v]> (<["name" := VStr name]> (<["player" := player]>
                 (<["id" := attr_id]> (<["header" := header]> ∅)))).
Proof.
  unfold Attribute_init. fold padding. split.
  - destruct (lobby_get _ _) as [[name lookup]|].
    + destruct (lookup !! _) as [v|] eqn:Hv; simpl; [|done].
      intros [= <-]. by exists name, lookup, v.
    + intros H. apply bind_Ok in H as (? & _ & H). done.
  - intros (name & lookup & v & -> & Hv & ->). by rewrite Hv.
Qed.

(** ** The properties above on the sample inputs *)

Lemma alice_competitor :
  competitor Sample.GATEWAY_LOOKUP Sample.LOCALIZED_RACES (Sample.unwrap Sample.alice).
Proof.
  exists 0, (Sample.slot 0 (Some "1-S2-2-555")), 0, (Sample.account "Alice"), 1,
    (Sample.detail "Alice" "zerg" 1 555), ∅.
  left. vm_compute. reflexivity.
Defined.

Lemma bob_competitor :
  competitor Sample.GATEWAY_LOOKUP Sample.LOCALIZED_RACES (Sample.unwrap Sample.bob).
Proof.
  exists 1, (Sample.slot 0 None), 1, (Sample.account "Bob"), 2,
    (Sample.detail "Bob" "terr" 0 777), ∅.
  left. vm_compute. reflexivity.
Defined.

Lemma ai_competitor :
  competitor Sample.GATEWAY_LOOKUP Sample.LOCALIZED_RACES (Sample.unwrap Sample.ai).
Proof.
  exists 3, (Sample.slot 1 None), 0, (Sample.account ""), 4,
    (Sample.detail "A.I. 1 (Hard)" "terr" 2 0), {[ "Difficulty" := "Hard" ]}.
  right. vm_compute. reflexivity.
Defined.

Lemma nameless_competitor :
  competitor Sample.GATEWAY_LOOKUP Sample.LOCALIZED_RACES (Sample.unwrap Demo.nameless).
Proof.
  exists 5, (Sample.slot 1 None), 0, (Sample.account ""), 6,
    (Sample.detail "A.I. 2" "" 0 0), ∅.
  right. vm_compute. reflexivity.
Defined.

Lemma dave_constructed :
  constructed Sample.GATEWAY_LOOKUP Sample.LOCALIZED_RACES
    (Sample.unwrap Demo.dave) (Demo.observer_slot 2 (Some "2-S2-1-4242")).
Proof.
  left. exists 4, 3, (Sample.account "Dave"), VNone. vm_compute. reflexivity.
Defined.

Lemma Entity_handle_round_trip_example :
  handle_fields
    (Entity_init Sample.GATEWAY_LOOKUP 0
       (with_handle (Sample.slot 0 None) (Some (handle_of 1 "S2" 2 555))) ∅)
  = Ok (Some (VStr "us"), Some (VInt 2), Some (VInt 555)).
Proof.
  apply (Entity_handle_round_trip Sample.GATEWAY_LOOKUP 0 (Sample.slot 0 None) ∅
           1 "S2" 2 555 "us"); try lia.
  - simpl. repeat split; discriminate.
  - reflexivity.
Defined.

Lemma Entity_unknown_gateway_example :
  Entity_init Sample.GATEWAY_LOOKUP 0
    (with_handle (Sample.slot 0 None) (Some (handle_of 7 "S2" 2 555))) ∅
  = Raise KeyError.
Proof.
  apply (Entity_unknown_gateway Sample.GATEWAY_LOOKUP 0 (Sample.slot 0 None) ∅
           7 "S2" 2 555); try lia.
  - simpl. repeat split; discriminate.
  - reflexivity.
Defined.

Lemma Entity_short_handle_fails_example :
  ∃ e, Entity_init Sample.GATEWAY_LOOKUP 0
         (with_handle (Sample.slot 0 None) (Some "1-S2-2")) ∅ = Raise e.
Proof.
  apply (Entity_short_handle_fails Sample.GATEWAY_LOOKUP 0 (Sample.slot 0 None) ∅
           "1-S2-2").
  - discriminate.
  - simpl. lia.
Defined.

Lemma constructed_role_flags_example :
  role_flags (__dict__ (Sample.unwrap Demo.dave))
  = (Some (VBool (bool_decide (2 = 2))), Some (VBool (bool_decide (2 ≠ 0))),
     Some (VBool (bool_decide (2 = 2))))
  ∧ (getattr (Sample.unwrap Demo.dave) "is_referee" = Ok (VBool true) →
     getattr (Sample.unwrap Demo.dave) "is_observer" = Ok (VBool true)).
Proof.
  apply (constructed_role_flags Sample.GATEWAY_LOOKUP Sample.LOCALIZED_RACES
           (Sample.unwrap Demo.dave) (Demo.observer_slot 2 (Some "2-S2-1-4242"))).
  apply dave_constructed.
Defined.

Lemma Observer_identity_from_handle_example :
  ∃ p,
    Observer_init Sample.GATEWAY_LOOKUP 4
      (with_handle (Demo.observer_slot 1 None) (Some (handle_of 2 "S2" 1 4242)))
      3 (Sample.account "Dave") VNone = Ok p
    ∧ cls p = Observer
    ∧ url p = Ok (profile_url "eu" 4242 1 "Dave")
    ∧ getattr p "pid" = Ok VNone.
Proof.
  apply (Observer_identity_from_handle Sample.GATEWAY_LOOKUP 4
           (Demo.observer_slot 1 None) 3 (Sample.account "Dave") VNone
           2 "S2" 1 4242 "eu"); try lia.
  - simpl. repeat split; discriminate.
  - reflexivity.
Defined.

Lemma Observer_lacks_player_attributes_example :
  getattr (Sample.unwrap Demo.dave) "play_race" = Raise (AttributeError "play_race")
  ∧ getattr (Sample.unwrap Demo.dave) "result" = Raise (AttributeError "result")
  ∧ ∀ t, Sample.unwrap Demo.dave ∈ Team.players t → ∃ e, lineup t = Raise e.
Proof.
  apply (Observer_lacks_player_attributes Sample.GATEWAY_LOOKUP 4
           (Demo.observer_slot 2 (Some "2-S2-1-4242")) 3 (Sample.account "Dave") VNone).
  vm_compute. reflexivity.
Defined.

Lemma Team_hash_competitors_example :
  let t := Sample.team_of [Sample.unwrap Sample.alice; Sample.unwrap Sample.ai] in
  ((∃ digest, hash Sample.digest t = Ok digest)
   ↔ Forall (λ p, cls p = Participant) (Team.players t))
  ∧ (hash Sample.digest t = Raise (AttributeError "url")
     ↔ Exists (λ p, cls p = Computer) (Team.players t)).
Proof.
  apply (Team_hash_competitors Sample.GATEWAY_LOOKUP Sample.LOCALIZED_RACES
           Sample.digest
           (Sample.team_of [Sample.unwrap Sample.alice; Sample.unwrap Sample.ai])).
  unfold Sample.team_of. rewrite Team_of_players.
  repeat constructor; [apply alice_competitor | apply ai_competitor].
Defined.

Lemma Team_lineup_competitors_example :
  let t := Sample.team_of [Sample.unwrap Sample.alice; Sample.unwrap Sample.bob] in
  (Forall (λ p, getattr p "play_race" ≠ Ok (VStr "")) (Team.players t) →
   ∃ s, lineup t = Ok s ∧ String.length s = length (Team.players t))
  ∧ (Exists (λ p, getattr p "play_race" = Ok (VStr "")) (Team.players t) →
     lineup t = Raise IndexError).
Proof.
  apply (Team_lineup_competitors Sample.GATEWAY_LOOKUP Sample.LOCALIZED_RACES
           (Sample.team_of [Sample.unwrap Sample.alice; Sample.unwrap Sample.bob])).
  unfold Sample.team_of. rewrite Team_of_players.
  repeat constructor; [apply alice_competitor | apply bob_competitor].
Defined.

Example lineup_with_empty_race :
  lineup (Sample.team_of [Sample.unwrap Sample.alice; Sample.unwrap Demo.nameless])
  = Raise IndexError.
Proof. vm_compute. reflexivity. Qed.

Lemma competitor_races_example :
  getattr (Sample.unwrap Sample.ai) "play_race" = Ok (VStr "Terran")
  ∧ getattr (Sample.unwrap Sample.ai) "pick_race" = Ok (VStr "Unknown")
  ∧ getattr (Sample.unwrap Sample.ai) "difficulty" = Ok (VStr "Hard").
Proof.
  pose proof (competitor_races Sample.GATEWAY_LOOKUP Sample.LOCALIZED_RACES
                (Sample.unwrap Sample.ai) 3 (Sample.slot 1 None) 0 (Sample.account "")
                4 (Sample.detail "A.I. 1 (Hard)" "terr" 2 0) {[ "Difficulty" := "Hard" ]})
    as H.
  destruct H as (H1 & _ & _ & H4 & H5 & _).
  - right. vm_compute. reflexivity.
  - split; [apply H1; reflexivity|]. split; [apply H4; reflexivity|].
    apply H5. reflexivity.
Defined.

Lemma competitor_str_example :
  (cls (Sample.unwrap Sample.ai) = Participant
   ∧ Obj_str (Sample.unwrap Sample.ai) = Ok (player_text 4 "" "Terran"))
  ∨ (cls (Sample.unwrap Sample.ai) = Computer
     ∧ Obj_str (Sample.unwrap Sample.ai) = Ok (player_text 4 "A.I. 1 (Hard)" "Terran")).
Proof.
  apply (competitor_str Sample.GATEWAY_LOOKUP Sample.LOCALIZED_RACES
           (Sample.unwrap Sample.ai) 3 (Sample.slot 1 None) 0 (Sample.account "")
           4 (Sample.detail "A.I. 1 (Hard)" "terr" 2 0) {[ "Difficulty" := "Hard" ]}).
  right. vm_compute. reflexivity.
Defined.

Example ai_str :
  Obj_str (Sample.unwrap Sample.ai) = Ok "Player 4 - A.I. 1 (Hard) (Terran)".
Proof. vm_compute. reflexivity. Qed.

Lemma Attribute_padding_irrelevant_example :
  Attribute_init Sample.LOBBY_PROPERTIES (VInt 0) (VInt 2001) (VInt 1)
    (String "000" " " +:+ "1v1" +:+ "  ")
  = Attribute_init Sample.LOBBY_PROPERTIES (VInt 0) (VInt 2001) (VInt 1) "1v1".
Proof.
  apply (Attribute_padding_irrelevant Sample.LOBBY_PROPERTIES (VInt 0) (VInt 2001)
           (VInt 1) "1v1" (String "000" " ") "  ").
  - simpl. repeat split; reflexivity.
  - simpl. repeat split; reflexivity.
Defined.

Lemma Graph_rebuild_from_points_example :
  from_samples [] [] (as_points (from_parallel [0; 5; 9] [10; 20])).1
  = from_parallel (take 2 [0; 5; 9]) (take 2 [10; 20])
  ∧ (length [0; 5; 9] = length [10; 20] →
     from_samples [] [] (as_points (from_parallel [0; 5; 9] [10; 20])).1
     = from_parallel [0; 5; 9] [10; 20]).
Proof.
  apply (Graph_rebuild_from_points (T:=Z) (V:=Z) [0; 5; 9] [] [10; 20] []).
  simpl. lia.
Defined.


Lemma constructed_team_id_example :
  getattr (Sample.unwrap Demo.dave) "team_id" = Ok (VInt (0 + 1)).
Proof.
  apply (constructed_team_id Sample.GATEWAY_LOOKUP Sample.LOCALIZED_RACES
           (Sample.unwrap Demo.dave) (Demo.observer_slot 2 (Some "2-S2-1-4242"))).
  apply dave_constructed.
Defined.

Example Team_str_ex : Team_str (Team_init 2) = Ok "Team 2".
Proof. vm_compute. reflexivity. Qed.

Example dave_str : Obj_str (Sample.unwrap Demo.dave) = Ok "Observer 3 - Dave".
Proof. vm_compute. reflexivity. Qed.

Example alice_format :
  Entity_format (Sample.unwrap Sample.alice) "{name} ({play_race}) on team {team_id}"
  = Ok "Alice (Zerg) on team 1".
Proof. vm_compute. reflexivity. Qed.

Example alice_format_missing :
  Entity_format (Sample.unwrap Sample.alice) "{nickname}" = Raise KeyError.
Proof. vm_compute. reflexivity. Qed.

Example Team_iter_order :
  Team_iter (Sample.team_of [Sample.unwrap Sample.bob; Sample.unwrap Sample.alice])
  = [Sample.unwrap Sample.bob; Sample.unwrap Sample.alice].
Proof. apply Team_of_players. Qed.

Example format_escaped_braces :
  Entity_format (Sample.unwrap Sample.alice) "{{{name}}}" = Ok "{Alice}".
Proof. vm_compute. reflexivity. Qed.

Example format_numbered_field :
  Entity_format (Sample.unwrap Sample.alice) "{0}" = Raise IndexError.
Proof. vm_compute. reflexivity. Qed.

Example format_first_fault_first :
  Entity_format (Sample.unwrap Sample.alice) "{nickname} }" = Raise KeyError.
Proof. vm_compute. reflexivity. Qed.

Example int_error_quotes :
  PyStr.int "S2" = Raise (ValueError "invalid literal for int() with base 10: 'S2'")
  ∧ PyStr.repr (String "039" "x") = String "034" (String "039" (String "x" (String "034" ""))).
Proof. split; vm_compute; reflexivity. Qed.
